(** * ChichiTk: button state model and PDF render/zoom cycle

  A shallow embedding of [chichitk/buttons.py] and
  [chichitk/pdf_display.py].  Widget objects are records, methods are
  computations in a state-and-exception monad (a Python exception leaves
  the attributes assigned so far in place, so the state is returned on
  both outcomes), user callbacks are recorded in a call log, and
  primitive floats stand for Python's binary64 numbers. *)

From Stdlib Require Import ZArith Uint63 Floats Ascii String Bool Lia.
From stdpp Require Import base list.
Import ListNotations.

(* ===================================================================== *)
(** ** Python runtime: exceptions, state, indexing, truthiness           *)
(* ===================================================================== *)
Module Py.

Inductive exn : Set :=
| IndexError | AttributeError | TypeError | ValueError | OverflowError | FitzError.

Inductive outcome (A : Type) : Type :=
| Ok (a : A)
| Raise (e : exn).
Arguments Ok {A} a.
Arguments Raise {A} e.

(** A method body: reads and writes the state [S], then returns or raises. *)
Definition M (S A : Type) : Type := S -> outcome A * S.

Definition ret {S A} (a : A) : M S A := fun s => (Ok a, s).

Definition bind {S A B} (m : M S A) (k : A -> M S B) : M S B :=
  fun s => match m s with
           | (Ok a, s') => k a s'
           | (Raise e, s') => (Raise e, s')
           end.

Definition raise {S A} (e : exn) : M S A := fun s => (Raise e, s).
Definition gets {S A} (f : S -> A) : M S A := fun s => (Ok (f s), s).

(** The outcome of a computation that does not touch the state. *)
Definition lift {S A} (o : outcome A) : M S A := fun s => (o, s).
Definition modify {S} (f : S -> S) : M S unit := fun s => (Ok tt, f s).

Definition exec {S A} (m : M S A) (s : S) : S := snd (m s).
Definition result {S A} (m : M S A) (s : S) : outcome A := fst (m s).

Definition succeeds {A} (o : outcome A) : bool :=
  match o with Ok _ => true | Raise _ => false end.

(** Sequencing where there is no state: the first exception ends it. *)
Definition and_then {A B} (o : outcome A) (k : A -> outcome B) : outcome B :=
  match o with
  | Ok a => k a
  | Raise e => Raise e
  end.

(** Running a method of a sub-object stored inside a larger object. *)
Record Lens (W A : Type) : Type := MkLens { view : W -> A; update : A -> W -> W }.
Arguments MkLens {W A} view update.
Arguments view {W A} l w.
Arguments update {W A} l a w.

Definition zoom {W A X} (L : Lens W A) (m : M A X) : M W X :=
  fun w => let '(r, a) := m (view L w) in (r, update L a w).

(** [l[i]] for a non-negative index. *)
Definition getitem {S A} (l : list A) (i : nat) : M S A :=
  match l !! i with
  | Some x => ret x
  | None => raise IndexError
  end.

(** [t[i][j]] *)
Definition getitem2 {S A} (t : list (list A)) (i j : nat) : M S A :=
  bind (getitem t i) (fun row => getitem row j).

(** [t[i][j] = v]: both subscripts are range-checked by Python. *)
Definition setitem2 {S A} (t : list (list A)) (i j : nat) (v : A) : M S (list (list A)) :=
  bind (getitem t i) (fun row =>
    if (j <? length row)%nat then ret (<[i := <[j := v]> row]> t)
    else raise IndexError).

(** A bool used as a subscript is the integer 0 or 1. *)
Definition idx (b : bool) : nat := if b then 1%nat else 0%nat.

(** A colour or a label is a [str] or [None]. *)
Definition pystr : Set := option string.

(** Truth value of a [str]-or-[None]: [None] and [''] are false. *)
Definition truthy (c : pystr) : bool :=
  match c with
  | Some EmptyString => false
  | Some _ => true
  | None => false
  end.

(** [x if x else y] *)
Definition if_else (x y : pystr) : pystr := if truthy x then x else y.

(** A [str] is taken as the sequence of its code points, all below 256. *)
Definition code (c : ascii) : nat := nat_of_ascii c.

(** [s[i:]] and [s[i:j]] for [0 <= i <= j]: a slice stops at the end of
    the string without complaint. *)
Fixpoint slice_from (i : nat) (s : string) : string :=
  match i, s with
  | O, _ => s
  | S i', String _ s' => slice_from i' s'
  | S _, EmptyString => EmptyString
  end.

Fixpoint slice_to (j : nat) (s : string) : string :=
  match j, s with
  | S j', String c s' => String c (slice_to j' s')
  | _, _ => EmptyString
  end.

Definition slice (i j : nat) (s : string) : string := slice_to (j - i) (slice_from i s).

(** The characters [int] skips around a literal: the ASCII white space,
    and of the other characters below 256 the two Unicode spaces, NEL
    and NBSP. *)
Definition is_space (c : ascii) : bool :=
  ((9 <=? code c) && (code c <=? 13) || (code c =? 32) ||
   (code c =? 133) || (code c =? 160))%nat.

(** The value of a character as a digit of base 16. *)
Definition hex_digit (c : ascii) : option Z :=
  if ((48 <=? code c) && (code c <=? 57))%nat then Some (Z.of_nat (code c - 48))
  else if ((97 <=? code c) && (code c <=? 102))%nat then Some (Z.of_nat (code c - 87))
  else if ((65 <=? code c) && (code c <=? 70))%nat then Some (Z.of_nat (code c - 55))
  else None.

Definition is_underscore (c : ascii) : bool := (code c =? 95)%nat.

Fixpoint skip_spaces (s : string) : string :=
  match s with
  | String c s' => if is_space c then skip_spaces s' else s
  | EmptyString => s
  end.

(** The sign of a literal, and what follows it. *)
Definition sign (s : string) : bool * string :=
  match s with
  | String c s' =>
      if (code c =? 43)%nat then (false, s')          (* + *)
      else if (code c =? 45)%nat then (true, s')      (* - *)
      else (false, s)
  | EmptyString => (false, s)
  end.

(** The prefix [0x] or [0X] that base 16 allows, with the one underscore
    that may follow it. *)
Definition prefix (s : string) : string :=
  match s with
  | String c0 (String c1 s') =>
      if ((code c0 =? 48) && ((code c1 =? 120) || (code c1 =? 88)))%nat then
        match s' with
        | String c2 s'' => if is_underscore c2 then s'' else s'
        | EmptyString => s'
        end
      else s
  | _ => s
  end.

(** The digits of a literal, most significant first.  Single underscores
    may stand between digits; [after_underscore] tells that the
    character before was one.  The value read, if there was a digit, and
    what follows the digits are returned; [None] is a misplaced
    underscore. *)
Fixpoint digits (s : string) (after_underscore : bool) (value : option Z)
  : option (option Z * string) :=
  match s with
  | String c s' =>
      if is_underscore c then
        if after_underscore then None else digits s' true value
      else
        match hex_digit c with
        | Some d =>
            digits s' false
              (Some (match value with Some v => 16 * v + d | None => d end)%Z)
        | None => if after_underscore then None else Some (value, s)
        end
  | EmptyString => if after_underscore then None else Some (value, s)
  end.

(** [int(s, 16)] *)
Definition int16 (s : string) : outcome Z :=
  let '(negative, s) := sign (skip_spaces s) in
  match prefix s with
  | String c s' as body =>
      if is_underscore c then Raise ValueError
      else
        match digits body false None with
        | Some (Some v, rest) =>
            match skip_spaces rest with
            | EmptyString => Ok (if negative then - v else v)%Z
            | String _ _ => Raise ValueError
            end
        | _ => Raise ValueError
        end
  | EmptyString => Raise ValueError
  end.

(** [os.path.join(a, b)] for a relative [b], with [/] as separator. *)
Definition ends_with_slash (a : string) : bool :=
  match String.get (String.length a - 1) a with
  | Some c => (code c =? 47)%nat
  | None => false
  end.

Definition path_join (a b : string) : string :=
  match a with
  | EmptyString => b
  | String _ _ => if ends_with_slash a then (a ++ b)%string else (a ++ "/" ++ b)%string
  end.

(** Hoare triples: from a state in [P], a return of [a] ends in a state
    in [Q a] and a raise ends in a state in [E]. *)
Definition hoare {S A} (P : S -> Prop) (m : M S A) (Q : A -> S -> Prop) (E : S -> Prop)
  : Prop :=
  forall s, P s ->
    match m s with
    | (Ok a, s') => Q a s'
    | (Raise _, s') => E s'
    end.

(** A method leaves an observation [f] of the state alone, whether it
    returns or raises. *)
Definition keeps {S A X} (f : S -> X) (m : M S A) : Prop :=
  forall s, f (exec m s) = f s.

(** A method maintains an invariant [I], whether it returns or raises. *)
Definition maintains {S A} (I : S -> Prop) (m : M S A) : Prop :=
  forall s, I s -> I (exec m s).

End Py.

Import Py.

Declare Scope py_scope.
Delimit Scope py_scope with py.
Notation "x <- c1 ;; c2" := (bind c1 (fun x => c2))
(at level 100, c1 at next level, right associativity) : py_scope.
Notation "c1 ;; c2" := (bind c1 (fun _ => c2))
(at level 100, right associativity) : py_scope.
Open Scope py_scope.

(* ===================================================================== *)
(** ** The world around a widget: user code and its observable calls     *)
(* ===================================================================== *)
Module Tk.

(** One invocation of a callback handed to a widget by its user. *)
Record call : Set := Call { callee : string; argument : option bool }.

(** A widget, the state [U] owned by the user's callbacks, and the log
    of callback invocations. *)
Record World (Wd U : Type) : Type :=
  MkWorld { widget : Wd; user : U; calls : list call }.
Arguments MkWorld {Wd U} widget user calls.
Arguments widget {Wd U} w.
Arguments user {Wd U} w.
Arguments calls {Wd U} w.

Definition widget_lens {Wd U} : Lens (World Wd U) Wd :=
  MkLens widget (fun b w => MkWorld b (user w) (calls w)).

Definition user_lens {Wd U} : Lens (World Wd U) U :=
  MkLens user (fun u w => MkWorld (widget w) u (calls w)).

(** Calling user code: the call is logged, then the body runs on the
    user's own state (and may raise). *)
Definition callback {Wd U} (name : string) (arg : option bool) (body : M U unit)
  : M (World Wd U) unit :=
  modify (fun w => MkWorld (widget w) (user w) (calls w ++ [Call name arg])) ;;
  zoom user_lens body.

End Tk.

Import Tk.

(* ===================================================================== *)
(** ** buttons.py: BaseButton, IconButton, ToggleIconButton              *)
(* ===================================================================== *)
Module Button.

(** An (r, g, b) tuple of Python ints. *)
Definition rgb : Set := (Z * Z * Z)%type.

(** [hex_to_rgb(hex_code)]: [None] cannot be sliced (TypeError), and
    each of the three slices has to be a literal of base 16
    (ValueError). *)
Definition hex_to_rgb (hex_code : pystr) : outcome rgb :=
  match hex_code with
  | None => Raise TypeError
  | Some s =>
      and_then (int16 (slice 1 3 s)) (fun r =>
      and_then (int16 (slice 3 5 s)) (fun g =>
      and_then (int16 (slice_from 5 s)) (fun b =>
      Ok (r, g, b))))
  end.

(** An icon as OpenCV/PIL hand it to Tk: the file it was read from and
    the colour replacements applied to its pixels, in order, each as
    (colour replaced, colour put in its place).  The image libraries are
    external; only what the button code passes to them is kept. *)
Record image : Set := Image { icon_path : string; replaced : list (rgb * rgb) }.

(** [image_replace_colors(img, colors_list)]: in each assignment the
    right-hand side [hex_to_rgb(replace)] is evaluated before the mask
    [img == hex_to_rgb(value)]. *)
Fixpoint image_replace_colors (img : image) (colors_list : list (pystr * pystr))
  : outcome image :=
  match colors_list with
  | [] => Ok img
  | (value, replace) :: colors_list' =>
      and_then (hex_to_rgb replace) (fun new =>
      and_then (hex_to_rgb value) (fun old =>
      image_replace_colors (Image (icon_path img) (replaced img ++ [(old, new)]))
        colors_list'))
  end.

(** The files that [cv2.imread] can decode, by path. *)
Definition disk : Type := string -> bool.

(** [cv2.imread(icon_path)]: [None] when the file is missing or is not
    an image. *)
Definition imread (fs : disk) (path : string) : option image :=
  if fs path then Some (Image path []) else None.

(** [img.copy()]: [None] has no such method. *)
Definition copy (img : option image) : outcome image :=
  match img with
  | Some i => Ok i
  | None => Raise AttributeError
  end.

(** The widget options written by [config_colors]:
    [self.config(bg=)], [self.bar.config(bg=)], [self.label.config(bg=, fg=)]
    and [self.icon.config(image=, bg=, activebackground=)]. *)
Record Appearance : Set := MkAppearance {
  frame_bg : pystr;
  bar_bg : pystr;
  label_bg : pystr;
  label_fg : pystr;
  icon_image : option image;
  icon_bg : pystr;
  icon_activebackground : pystr }.

(** Tk's options before the first [config_colors]. *)
Definition tk_default : Appearance := MkAppearance None None None None None None None.

(** The parameters of [BaseButton.__init__] that take part in the state
    and colour logic (fonts, padding and bar geometry are left out), as
    they are bound when the body runs. *)
Record Kwargs : Set := MkKwargs {
  kw_popup_label : pystr;
  kw_selectable : bool;
  kw_select_on_click : bool;
  kw_selected : bool;
  kw_active_bg : pystr;
  kw_inactive_bg : pystr;
  kw_active_hover_bg : pystr;
  kw_inactive_hover_bg : pystr;
  kw_active_fg : pystr;
  kw_inactive_fg : pystr;
  kw_active_hover_fg : pystr;
  kw_inactive_hover_fg : pystr;
  kw_popup_bg : pystr;
  kw_active_bar_color : pystr;
  kw_inactive_bar_color : pystr;
  kw_active_hover_bar_color : pystr;
  kw_inactive_hover_bar_color : pystr;
  kw_off_fg : pystr }.

(** The defaults of the signature of [BaseButton.__init__]. *)
Definition default_kwargs : Kwargs := {|
  kw_popup_label := None;
  kw_selectable := true;
  kw_select_on_click := true;
  kw_selected := false;
  kw_active_bg := Some "#070708"%string;
  kw_inactive_bg := Some "#000000"%string;
  kw_active_hover_bg := None;
  kw_inactive_hover_bg := None;
  kw_active_fg := Some "#13ce12"%string;
  kw_inactive_fg := Some "#888888"%string;
  kw_active_hover_fg := Some "#74d573"%string;
  kw_inactive_hover_fg := Some "#74d573"%string;
  kw_popup_bg := None;
  kw_active_bar_color := None;
  kw_inactive_bar_color := None;
  kw_active_hover_bar_color := None;
  kw_inactive_hover_bar_color := Some "#dcdcdc"%string;
  kw_off_fg := Some "#555555"%string |}.

(** What a caller passes in [**kwargs]: each of these keywords is either
    given or left out. *)
Record Keywords : Set := MkKeywords {
  given_popup_label : option pystr;
  given_selectable : option bool;
  given_select_on_click : option bool;
  given_selected : option bool;
  given_active_bg : option pystr;
  given_inactive_bg : option pystr;
  given_active_hover_bg : option pystr;
  given_inactive_hover_bg : option pystr;
  given_active_fg : option pystr;
  given_inactive_fg : option pystr;
  given_active_hover_fg : option pystr;
  given_inactive_hover_fg : option pystr;
  given_popup_bg : option pystr;
  given_active_bar_color : option pystr;
  given_inactive_bar_color : option pystr;
  given_active_hover_bar_color : option pystr;
  given_inactive_hover_bar_color : option pystr;
  given_off_fg : option pystr }.

(** No keyword at all. *)
Definition no_keywords : Keywords :=
  MkKeywords None None None None None None None None None
             None None None None None None None None None.

(** Binding [**kwargs] to the parameters: a keyword that is left out
    takes the default of the signature. *)
Definition bind_keywords (kwargs : Keywords) : Kwargs := {|
  kw_popup_label := default (kw_popup_label default_kwargs) (given_popup_label kwargs);
  kw_selectable := default (kw_selectable default_kwargs) (given_selectable kwargs);
  kw_select_on_click :=
    default (kw_select_on_click default_kwargs) (given_select_on_click kwargs);
  kw_selected := default (kw_selected default_kwargs) (given_selected kwargs);
  kw_active_bg := default (kw_active_bg default_kwargs) (given_active_bg kwargs);
  kw_inactive_bg := default (kw_inactive_bg default_kwargs) (given_inactive_bg kwargs);
  kw_active_hover_bg :=
    default (kw_active_hover_bg default_kwargs) (given_active_hover_bg kwargs);
  kw_inactive_hover_bg :=
    default (kw_inactive_hover_bg default_kwargs) (given_inactive_hover_bg kwargs);
  kw_active_fg := default (kw_active_fg default_kwargs) (given_active_fg kwargs);
  kw_inactive_fg := default (kw_inactive_fg default_kwargs) (given_inactive_fg kwargs);
  kw_active_hover_fg :=
    default (kw_active_hover_fg default_kwargs) (given_active_hover_fg kwargs);
  kw_inactive_hover_fg :=
    default (kw_inactive_hover_fg default_kwargs) (given_inactive_hover_fg kwargs);
  kw_popup_bg := default (kw_popup_bg default_kwargs) (given_popup_bg kwargs);
  kw_active_bar_color :=
    default (kw_active_bar_color default_kwargs) (given_active_bar_color kwargs);
  kw_inactive_bar_color :=
    default (kw_inactive_bar_color default_kwargs) (given_inactive_bar_color kwargs);
  kw_active_hover_bar_color :=
    default (kw_active_hover_bar_color default_kwargs) (given_active_hover_bar_color kwargs);
  kw_inactive_hover_bar_color :=
    default (kw_inactive_hover_bar_color default_kwargs)
      (given_inactive_hover_bar_color kwargs);
  kw_off_fg := default (kw_off_fg default_kwargs) (given_off_fg kwargs) |}.

(** The attributes of an [IconButton] (those of [BaseButton] first).
    [base_img] is [None] when [cv2.imread] could not read the icon. *)
Record IconButton : Set := MkIconButton {
  selected : bool;
  hovering : bool;
  active : bool;
  selectable : bool;
  select_on_click : bool;
  popup_labels : list pystr;
  off_fg : pystr;
  bg_colors : list (list pystr);
  fg_colors : list (list pystr);
  bar_colors : list (list pystr);
  tool_tip_bg : pystr;
  tool_tip : pystr;          (* text the tool tip shows; [None] once faded out *)
  base_img : option image;
  images : list (list (option image));
  off_icon : option image;
  look : Appearance }.

Definition set_selected (v : bool) (b : IconButton) : IconButton :=
  MkIconButton v (hovering b) (active b) (selectable b) (select_on_click b)
    (popup_labels b) (off_fg b) (bg_colors b) (fg_colors b) (bar_colors b)
    (tool_tip_bg b) (tool_tip b) (base_img b) (images b) (off_icon b) (look b).

Definition set_hovering (v : bool) (b : IconButton) : IconButton :=
  MkIconButton (selected b) v (active b) (selectable b) (select_on_click b)
    (popup_labels b) (off_fg b) (bg_colors b) (fg_colors b) (bar_colors b)
    (tool_tip_bg b) (tool_tip b) (base_img b) (images b) (off_icon b) (look b).

Definition set_active (v : bool) (b : IconButton) : IconButton :=
  MkIconButton (selected b) (hovering b) v (selectable b) (select_on_click b)
    (popup_labels b) (off_fg b) (bg_colors b) (fg_colors b) (bar_colors b)
    (tool_tip_bg b) (tool_tip b) (base_img b) (images b) (off_icon b) (look b).

Definition set_bg_colors (v : list (list pystr)) (b : IconButton) : IconButton :=
  MkIconButton (selected b) (hovering b) (active b) (selectable b) (select_on_click b)
    (popup_labels b) (off_fg b) v (fg_colors b) (bar_colors b)
    (tool_tip_bg b) (tool_tip b) (base_img b) (images b) (off_icon b) (look b).

Definition set_fg_colors (v : list (list pystr)) (b : IconButton) : IconButton :=
  MkIconButton (selected b) (hovering b) (active b) (selectable b) (select_on_click b)
    (popup_labels b) (off_fg b) (bg_colors b) v (bar_colors b)
    (tool_tip_bg b) (tool_tip b) (base_img b) (images b) (off_icon b) (look b).

Definition set_bar_colors (v : list (list pystr)) (b : IconButton) : IconButton :=
  MkIconButton (selected b) (hovering b) (active b) (selectable b) (select_on_click b)
    (popup_labels b) (off_fg b) (bg_colors b) (fg_colors b) v
    (tool_tip_bg b) (tool_tip b) (base_img b) (images b) (off_icon b) (look b).

Definition set_tool_tip (v : pystr) (b : IconButton) : IconButton :=
  MkIconButton (selected b) (hovering b) (active b) (selectable b) (select_on_click b)
    (popup_labels b) (off_fg b) (bg_colors b) (fg_colors b) (bar_colors b)
    (tool_tip_bg b) v (base_img b) (images b) (off_icon b) (look b).

Definition set_base_img (v : option image) (b : IconButton) : IconButton :=
  MkIconButton (selected b) (hovering b) (active b) (selectable b) (select_on_click b)
    (popup_labels b) (off_fg b) (bg_colors b) (fg_colors b) (bar_colors b)
    (tool_tip_bg b) (tool_tip b) v (images b) (off_icon b) (look b).

Definition set_images (v : list (list (option image))) (b : IconButton) : IconButton :=
  MkIconButton (selected b) (hovering b) (active b) (selectable b) (select_on_click b)
    (popup_labels b) (off_fg b) (bg_colors b) (fg_colors b) (bar_colors b)
    (tool_tip_bg b) (tool_tip b) (base_img b) v (off_icon b) (look b).

Definition set_off_icon (v : option image) (b : IconButton) : IconButton :=
  MkIconButton (selected b) (hovering b) (active b) (selectable b) (select_on_click b)
    (popup_labels b) (off_fg b) (bg_colors b) (fg_colors b) (bar_colors b)
    (tool_tip_bg b) (tool_tip b) (base_img b) (images b) v (look b).

Definition set_look (v : Appearance) (b : IconButton) : IconButton :=
  MkIconButton (selected b) (hovering b) (active b) (selectable b) (select_on_click b)
    (popup_labels b) (off_fg b) (bg_colors b) (fg_colors b) (bar_colors b)
    (tool_tip_bg b) (tool_tip b) (base_img b) (images b) (off_icon b) v.

(** [popup_label + ' : Inactive' if popup_label else None] *)
Definition inactive_label (popup_label : pystr) : pystr :=
  if truthy popup_label
  then option_map (fun s => (s ++ " : Inactive")%string) popup_label
  else None.

(** [BaseButton.__init__]: the attributes it assigns.  The icon
    attributes do not exist yet: [IconButton.__init__] assigns them
    before anything reads them. *)
Definition BaseButton_init (kw : Kwargs) : IconButton :=
  let bg_colors :=
    [[kw_inactive_bg kw; if_else (kw_inactive_hover_bg kw) (kw_inactive_bg kw)];
     [kw_active_bg kw; if_else (kw_active_hover_bg kw) (kw_active_bg kw)]] in
  let fg_colors :=
    [[kw_inactive_fg kw; if_else (kw_inactive_hover_fg kw) (kw_inactive_fg kw)];
     [kw_active_fg kw; if_else (kw_active_hover_fg kw) (kw_active_fg kw)]] in
  let active_bar_color := if_else (kw_active_bar_color kw) (kw_active_fg kw) in
  let inactive_bar_color := if_else (kw_inactive_bar_color kw) (kw_inactive_bg kw) in
  let bar_colors :=
    [[inactive_bar_color; if_else (kw_inactive_hover_bar_color kw) inactive_bar_color];
     [active_bar_color; if_else (kw_active_hover_bar_color kw) active_bar_color]] in
  {| selected := kw_selected kw;
     hovering := false;
     active := true;
     selectable := kw_selectable kw;
     select_on_click := kw_select_on_click kw;
     popup_labels := [inactive_label (kw_popup_label kw); kw_popup_label kw];
     off_fg := kw_off_fg kw;
     bg_colors := bg_colors;
     fg_colors := fg_colors;
     bar_colors := bar_colors;
     tool_tip_bg := if_else (kw_popup_bg kw) (kw_inactive_bg kw);
     tool_tip := None;
     base_img := None;
     images := [];
     off_icon := None;
     look := tk_default |}.

(** What [config_colors] computes before it touches the widgets. *)
Record Palette : Set := MkPalette {
  p_bg : pystr; p_fg : pystr; p_bar_color : pystr; p_image : option image }.

(** The first half of [IconButton.config_colors]: the lookup. *)
Definition lookup_colors : M IconButton Palette :=
  b <- gets (fun b => b) ;;
  if active b then
    bg <- getitem2 (bg_colors b) (idx (selected b)) (idx (hovering b)) ;;
    fg <- getitem2 (fg_colors b) (idx (selected b)) (idx (hovering b)) ;;
    bar_color <- getitem2 (bar_colors b) (idx (selected b)) (idx (hovering b)) ;;
    image <- getitem2 (images b) (idx (selected b)) (idx (hovering b)) ;;
    ret (MkPalette bg fg bar_color image)
  else
    bg <- getitem2 (bg_colors b) 0 0 ;;
    bar_color <- getitem2 (bg_colors b) 0 0 ;;
    ret (MkPalette bg (off_fg b) bar_color (off_icon b)).

(** [IconButton.config_colors]: sets colors based on [selected],
    [hovering] and [active]. *)
Definition config_colors : M IconButton unit :=
  p <- lookup_colors ;;
  modify (set_look
    {| frame_bg := p_bg p;
       bar_bg := p_bar_color p;
       label_bg := p_bg p;
       label_fg := p_fg p;
       icon_image := p_image p;
       icon_bg := p_bg p;
       icon_activebackground := p_bg p |}).

(** A [for] loop over a list. *)
Fixpoint for_each {S A} (l : list A) (body : A -> M S unit) : M S unit :=
  match l with
  | [] => ret tt
  | x :: l' => body x ;; for_each l' body
  end.

(** The rest of [IconButton.__init__]: the icon is read, the four
    recoloured icons and the icon of the switched-off button are made,
    and [config_colors] runs for the first time. *)
Definition IconButton_init (fs : disk) (icon_path : string) : M IconButton unit :=
  modify (set_images [[None; None]; [None; None]]) ;;
  modify (set_base_img (imread fs icon_path)) ;;
  for_each [(0, 0); (0, 1); (1, 0); (1, 1)]%nat (fun xy =>
    b <- gets (fun b => b) ;;
    img <- lift (copy (base_img b)) ;;
    fg <- getitem2 (fg_colors b) (fst xy) (snd xy) ;;
    bg <- getitem2 (bg_colors b) (fst xy) (snd xy) ;;
    temp_img <- lift (image_replace_colors img
                        [(Some "#ffffff"%string, fg); (Some "#000000"%string, bg)]) ;;
    imgs <- setitem2 (images b) (fst xy) (snd xy) (Some temp_img) ;;
    modify (set_images imgs)) ;;
  b <- gets (fun b => b) ;;
  img <- lift (copy (base_img b)) ;;
  bg00 <- getitem2 (bg_colors b) 0 0 ;;
  off_img <- lift (image_replace_colors img
                     [(Some "#ffffff"%string, off_fg b); (Some "#000000"%string, bg00)]) ;;
  modify (set_off_icon (Some off_img)) ;;
  config_colors.

(** [IconButton(master, icon_path, command, ...)] with the parameters of
    [BaseButton.__init__] bound to [kw]: the new button, or the
    exception that [__init__] lets through. *)
Definition IconButton_new (fs : disk) (icon_path : string) (kw : Kwargs)
  : outcome IconButton :=
  match IconButton_init fs icon_path (BaseButton_init kw) with
  | (Ok _, b) => Ok b
  | (Raise e, _) => Raise e
  end.

(** [IconButton.set_color(color, which, selected, hover)]: the table
    entry is assigned before the icon is recoloured, so it stays
    assigned when the recolouring raises. *)
Definition set_color (color : pystr) (which : string) (sel hover : bool)
  : M IconButton unit :=
  (if String.eqb which "bg" then
     b <- gets (fun b => b) ;;
     t <- setitem2 (bg_colors b) (idx sel) (idx hover) color ;;
     modify (set_bg_colors t) ;;
     b <- gets (fun b => b) ;;
     img <- lift (copy (base_img b)) ;;
     fg <- getitem2 (fg_colors b) (idx sel) (idx hover) ;;
     temp_img <- lift (image_replace_colors img
                         [(Some "#ffffff"%string, fg); (Some "#000000"%string, color)]) ;;
     imgs <- setitem2 (images b) (idx sel) (idx hover) (Some temp_img) ;;
     modify (set_images imgs)
   else if String.eqb which "fg" then
     b <- gets (fun b => b) ;;
     t <- setitem2 (fg_colors b) (idx sel) (idx hover) color ;;
     modify (set_fg_colors t) ;;
     b <- gets (fun b => b) ;;
     img <- lift (copy (base_img b)) ;;
     bg <- getitem2 (bg_colors b) (idx sel) (idx hover) ;;
     temp_img <- lift (image_replace_colors img
                         [(Some "#ffffff"%string, color); (Some "#000000"%string, bg)]) ;;
     imgs <- setitem2 (images b) (idx sel) (idx hover) (Some temp_img) ;;
     modify (set_images imgs)
   else if String.eqb which "bar" then
     b <- gets (fun b => b) ;;
     t <- setitem2 (bar_colors b) (idx sel) (idx hover) color ;;
     modify (set_bar_colors t)
   else ret tt) ;;
  config_colors.

(** [BaseButton.turn_on] *)
Definition turn_on : M IconButton unit :=
  modify (set_active true) ;; config_colors.

(** [BaseButton.turn_off] *)
Definition turn_off : M IconButton unit :=
  modify (set_active false) ;; config_colors.

(** [BaseButton.hover_enter], bound to [<Enter>]. *)
Definition hover_enter : M IconButton unit :=
  b <- gets (fun b => b) ;;
  if negb (hovering b) then
    modify (set_hovering true) ;;
    label0 <- getitem (popup_labels b) 0 ;;
    (if truthy label0 then
       text <- getitem (popup_labels b) (idx (active b)) ;;
       modify (set_tool_tip text)
     else ret tt) ;;
    (if active b then config_colors else ret tt)
  else ret tt.

(** [BaseButton.hover_leave], bound to [<Leave>]. *)
Definition hover_leave : M IconButton unit :=
  b <- gets (fun b => b) ;;
  if hovering b then
    modify (set_hovering false) ;;
    label0 <- getitem (popup_labels b) 0 ;;
    (if truthy label0 then modify (set_tool_tip None) else ret tt) ;;
    (if active b then config_colors else ret tt)
  else ret tt.

(** [BaseButton.select] *)
Definition select : M IconButton unit :=
  b <- gets (fun b => b) ;;
  if selectable b && negb (selected b) then
    modify (set_selected true) ;; config_colors
  else ret tt.

(** [BaseButton.deselect] *)
Definition deselect : M IconButton unit :=
  b <- gets (fun b => b) ;;
  if selected b then
    modify (set_selected false) ;; config_colors
  else ret tt.

(** [BaseButton.click_button], bound to [<Button-1>]: [self] is reached
    through a lens because [click_command] may be a method of the widget
    that owns the button. *)
Definition click_button {W} (self : Lens W IconButton) (click_command : M W unit)
  : M W unit :=
  b <- gets (view self) ;;
  if active b then
    click_command ;;
    b' <- gets (view self) ;;
    if select_on_click b' then zoom self select else ret tt
  else ret tt.

(** The shape [BaseButton.__init__] gives the colour tables: two rows
    (not selected, selected) of two entries (not hovering, hovering). *)
Definition table2x2 {A} (t : list (list A)) : Prop :=
  exists a b c d, t = [[a; b]; [c; d]].

Record well_formed (b : IconButton) : Prop := MkWellFormed {
  wf_bg : table2x2 (bg_colors b);
  wf_fg : table2x2 (fg_colors b);
  wf_bar : table2x2 (bar_colors b);
  wf_images : table2x2 (images b);
  wf_labels : exists x y, popup_labels b = [x; y] }.




(** Every entry of a table satisfies [P]. *)
Definition all_entries {A} (P : A -> Prop) (t : list (list A)) : Prop :=
  Forall (Forall P) t.

(** Every colour the lookup can return is a non-empty string, and every
    icon it can return exists. *)
Record colours_defined (b : IconButton) : Prop := MkColoursDefined {
  cd_bg : all_entries (fun c => truthy c = true) (bg_colors b);
  cd_fg : all_entries (fun c => truthy c = true) (fg_colors b);
  cd_bar : all_entries (fun c => truthy c = true) (bar_colors b);
  cd_off_fg : truthy (off_fg b) = true }.

Record icons_defined (b : IconButton) : Prop := MkIconsDefined {
  id_images : all_entries (fun i : option image => i <> None) (images b);
  id_off_icon : off_icon b <> None;
  id_base_img : base_img b <> None }.

End Button.

Import Button.

(* ===================================================================== *)
(** ** A button in its world: events, commands, ToggleIconButton         *)
(* ===================================================================== *)
Module Widget.

(** A callable supplied by the user, as the call log names it. *)
Record user_command (U : Type) : Type :=
  MkCommand { cmd_name : string; cmd_arg : option bool; cmd_body : M U unit }.
Arguments MkCommand {U} cmd_name cmd_arg cmd_body.
Arguments cmd_name {U} _.
Arguments cmd_arg {U} _.
Arguments cmd_body {U} _.

Definition invoke {Wd U} (c : user_command U) : M (World Wd U) unit :=
  callback (cmd_name c) (cmd_arg c) (cmd_body c).

(** The Tk events the buttons bind. *)
Inductive event : Set :=
| Enter      (* <Enter> *)
| Leave      (* <Leave> *)
| Click.     (* <Button-1> *)

(** Whose [click_command] a button carries: an [IconButton] calls the
    user's zero-argument command, a [ToggleIconButton] its own [click]. *)
Inductive kind (U : Type) : Type :=
| Plain (command : M U unit)
| Toggle (toggle_command : option (bool -> M U unit)).
Arguments Plain {U} command.
Arguments Toggle {U} toggle_command.

Section Standalone.
Context {U : Type}.

(** [ToggleIconButton.click] *)
Definition ToggleIconButton_click (toggle_command : option (bool -> M U unit))
  : M (World IconButton U) unit :=
  zoom widget_lens (b <- gets (fun b => b) ;;
                    modify (set_selected (negb (selected b)))) ;;
  zoom widget_lens config_colors ;;
  match toggle_command with
  | Some f =>
      b <- gets widget ;;
      callback "toggle_command" (Some (selected b)) (f (selected b))
  | None => ret tt
  end.

(** [ToggleIconButton(master, icon_path, command, **kwargs)] calls
    [IconButton.__init__(..., select_on_click=False, **kwargs)]: a
    [select_on_click] in [kwargs] is a second value for the same
    keyword, a TypeError. *)
Definition ToggleIconButton_new (fs : disk) (icon_path : string) (kwargs : Keywords)
  : outcome IconButton :=
  match given_select_on_click kwargs with
  | Some _ => Raise TypeError
  | None =>
      let kw := bind_keywords kwargs in
      IconButton_new fs icon_path
        (MkKwargs (kw_popup_label kw) (kw_selectable kw) false (kw_selected kw)
           (kw_active_bg kw) (kw_inactive_bg kw) (kw_active_hover_bg kw)
           (kw_inactive_hover_bg kw) (kw_active_fg kw) (kw_inactive_fg kw)
           (kw_active_hover_fg kw) (kw_inactive_hover_fg kw) (kw_popup_bg kw)
           (kw_active_bar_color kw) (kw_inactive_bar_color kw)
           (kw_active_hover_bar_color kw) (kw_inactive_hover_bar_color kw)
           (kw_off_fg kw))
  end.

Definition click_command (k : kind U) : M (World IconButton U) unit :=
  match k with
  | Plain command => callback "command" None command
  | Toggle toggle_command => ToggleIconButton_click toggle_command
  end.

(** Every operation a button offers: the three event handlers and the
    public methods. *)
Inductive operation : Set :=
| Op_hover_enter
| Op_hover_leave
| Op_click_button
| Op_select
| Op_deselect
| Op_turn_on
| Op_turn_off
| Op_config_colors
| Op_set_color (color : pystr) (which : string) (sel hover : bool).

Definition run (k : kind U) (o : operation) : M (World IconButton U) unit :=
  match o with
  | Op_hover_enter => zoom widget_lens hover_enter
  | Op_hover_leave => zoom widget_lens hover_leave
  | Op_click_button => click_button widget_lens (click_command k)
  | Op_select => zoom widget_lens select
  | Op_deselect => zoom widget_lens deselect
  | Op_turn_on => zoom widget_lens turn_on
  | Op_turn_off => zoom widget_lens turn_off
  | Op_config_colors => zoom widget_lens config_colors
  | Op_set_color color which sel hover =>
      zoom widget_lens (set_color color which sel hover)
  end.

(** The handler Tk runs for an event on the button. *)
Definition deliver (k : kind U) (e : event) : M (World IconButton U) unit :=
  match e with
  | Enter => run k Op_hover_enter
  | Leave => run k Op_hover_leave
  | Click => run k Op_click_button
  end.

Fixpoint run_all (k : kind U) (os : list operation) : M (World IconButton U) unit :=
  match os with
  | [] => ret tt
  | o :: os' => run k o ;; run_all k os'
  end.


(** The operations other than the two hover handlers. *)
Definition not_hover (o : operation) : bool :=
  match o with
  | Op_hover_enter | Op_hover_leave => false
  | _ => true
  end.


End Standalone.
End Widget.

Import Widget.

(* ===================================================================== *)
(** ** buttons.py: DoubleIconButton and CheckButton                      *)
(* ===================================================================== *)
Module Double.

(** The two children of the frame. *)
Inductive child : Set := Child1 | Child2.

Definition child_eqb (a b : child) : bool :=
  match a, b with
  | Child1, Child1 | Child2, Child2 => true
  | _, _ => false
  end.

(** Tk's packer, as far as the frame is concerned: the list of children
    it currently shows.  [pack] of a child that is already shown keeps
    its place; [pack_forget] takes the child out. *)
Definition pack (c : child) (shown : list child) : list child :=
  if existsb (child_eqb c) shown then shown else shown ++ [c].

Definition pack_forget (c : child) (shown : list child) : list child :=
  List.filter (fun x => negb (child_eqb x c)) shown.

Record DoubleIconButton : Set := MkDouble {
  double_status : bool;   (* [self.__double_status] *)
  Button1 : IconButton;
  Button2 : IconButton;
  shown : list child }.

Definition set_double_status (v : bool) (d : DoubleIconButton) : DoubleIconButton :=
  MkDouble v (Button1 d) (Button2 d) (shown d).
Definition set_Button1 (v : IconButton) (d : DoubleIconButton) : DoubleIconButton :=
  MkDouble (double_status d) v (Button2 d) (shown d).
Definition set_Button2 (v : IconButton) (d : DoubleIconButton) : DoubleIconButton :=
  MkDouble (double_status d) (Button1 d) v (shown d).
Definition set_shown (v : list child) (d : DoubleIconButton) : DoubleIconButton :=
  MkDouble (double_status d) (Button1 d) (Button2 d) v.

(** The parameters that
    [IconButton(..., selectable=False, popup_label=popup_label, **kwargs)]
    binds: a [selectable] or a [popup_label] in [kwargs] is a second
    value for the same keyword, a TypeError. *)
Definition child_kwargs (popup_label : pystr) (kwargs : Keywords) : outcome Kwargs :=
  match given_selectable kwargs, given_popup_label kwargs with
  | None, None =>
      let kw := bind_keywords kwargs in
      Ok (MkKwargs popup_label false (kw_select_on_click kw) (kw_selected kw)
            (kw_active_bg kw) (kw_inactive_bg kw) (kw_active_hover_bg kw)
            (kw_inactive_hover_bg kw) (kw_active_fg kw) (kw_inactive_fg kw)
            (kw_active_hover_fg kw) (kw_inactive_hover_fg kw) (kw_popup_bg kw)
            (kw_active_bar_color kw) (kw_inactive_bar_color kw)
            (kw_active_hover_bar_color kw) (kw_inactive_hover_bar_color kw)
            (kw_off_fg kw))
  | _, _ => Raise TypeError
  end.

(** [DoubleIconButton(master, icon1, icon2, command1, command2,
    popup_label1=, popup_label2=, **kwargs)]: the new widget, or the
    exception that [__init__] lets through. *)
Definition DoubleIconButton_new (fs : disk) (icon1 icon2 : string)
    (popup_label1 popup_label2 : pystr) (kwargs : Keywords) : outcome DoubleIconButton :=
  and_then (child_kwargs popup_label1 kwargs) (fun kw1 =>
  and_then (IconButton_new fs icon1 kw1) (fun b1 =>
  and_then (child_kwargs popup_label2 kwargs) (fun kw2 =>
  and_then (IconButton_new fs icon2 kw2) (fun b2 =>
  Ok (MkDouble false b1 b2 (pack Child1 [])))))).

(** [DoubleIconButton.switch1] *)
Definition switch1 : M DoubleIconButton unit :=
  modify (set_double_status false) ;;
  modify (fun d => set_shown (pack_forget Child2 (shown d)) d) ;;
  modify (fun d => set_shown (pack Child1 (shown d)) d).

(** [DoubleIconButton.switch2] *)
Definition switch2 : M DoubleIconButton unit :=
  modify (set_double_status true) ;;
  modify (fun d => set_shown (pack_forget Child1 (shown d)) d) ;;
  modify (fun d => set_shown (pack Child2 (shown d)) d).

(** [DoubleIconButton.get] *)
Definition get (d : DoubleIconButton) : bool := double_status d.

Section Commands.
Context {U : Type}.
Variables command1 command2 : user_command U.

Definition Button1_lens : Lens (World DoubleIconButton U) IconButton :=
  MkLens (fun w => Button1 (widget w))
         (fun b w => MkWorld (set_Button1 b (widget w)) (user w) (calls w)).

Definition Button2_lens : Lens (World DoubleIconButton U) IconButton :=
  MkLens (fun w => Button2 (widget w))
         (fun b w => MkWorld (set_Button2 b (widget w)) (user w) (calls w)).

(** [DoubleIconButton.click1]: switches to button2 and calls command1. *)
Definition click1 : M (World DoubleIconButton U) unit :=
  zoom widget_lens switch2 ;;
  invoke command1.

(** [DoubleIconButton.click2]: switches to button1 and calls command2. *)
Definition click2 : M (World DoubleIconButton U) unit :=
  zoom widget_lens switch1 ;;
  invoke command2.

(** What can happen to a [DoubleIconButton]: its own methods, and the
    events and methods of its two buttons, whose [click_command]s are
    [click1] and [click2]. *)
Inductive operation : Set :=
| Op_switch1
| Op_switch2
| Op_click1
| Op_click2
| On_Button1 (o : Widget.operation)
| On_Button2 (o : Widget.operation).

Definition run_child (self : Lens (World DoubleIconButton U) IconButton)
    (click_command : M (World DoubleIconButton U) unit) (o : Widget.operation)
  : M (World DoubleIconButton U) unit :=
  match o with
  | Op_hover_enter => zoom self hover_enter
  | Op_hover_leave => zoom self hover_leave
  | Op_click_button => click_button self click_command
  | Op_select => zoom self select
  | Op_deselect => zoom self deselect
  | Op_turn_on => zoom self turn_on
  | Op_turn_off => zoom self turn_off
  | Op_config_colors => zoom self config_colors
  | Op_set_color color which sel hover => zoom self (set_color color which sel hover)
  end.

Definition run (o : operation) : M (World DoubleIconButton U) unit :=
  match o with
  | Op_switch1 => zoom widget_lens switch1
  | Op_switch2 => zoom widget_lens switch2
  | Op_click1 => click1
  | Op_click2 => click2
  | On_Button1 o' => run_child Button1_lens click1 o'
  | On_Button2 o' => run_child Button2_lens click2 o'
  end.

Fixpoint run_all (os : list operation) : M (World DoubleIconButton U) unit :=
  match os with
  | [] => ret tt
  | o :: os' => run o ;; run_all os'
  end.

End Commands.

(** The two icons of a [CheckButton], in the directory [icons] beside
    the module, whose own directory
    [os.path.dirname(os.path.realpath(__file__))] is [here]. *)
Definition box_png (here : string) : string :=
  path_join (path_join here "icons") "box.png".
Definition checkbox_png (here : string) : string :=
  path_join (path_join here "icons") "checkbox.png".

(** [CheckButton.__init__]: Button1 is the unchecked box, Button2 the
    checked one; [command1] is [lambda: command(True)] and [command2]
    is [lambda: command(False)]. *)
Definition CheckButton_command {U} (command : bool -> M U unit) (v : bool) : user_command U :=
  MkCommand "command" (Some v) (command v).

Definition CheckButton_new {U} (fs : disk) (here : string) (command : bool -> M U unit)
    (active_popup_label inactive_popup_label : pystr) (active : bool) (kwargs : Keywords)
    (w : World unit U) : outcome unit * World (option DoubleIconButton) U :=
  match DoubleIconButton_new fs (box_png here) (checkbox_png here)
          inactive_popup_label active_popup_label kwargs with
  | Raise e => (Raise e, MkWorld None (user w) (calls w))
  | Ok d =>
      let '(r, w') :=
        (if active
         then click_button Button1_lens (click1 (CheckButton_command command true))
         else ret tt) (MkWorld d (user w) (calls w)) in
      (r, MkWorld (Some (widget w')) (user w') (calls w'))
  end.

(** The status flag agrees with the button on display. *)
Definition consistent (d : DoubleIconButton) : Prop :=
  shown d = [if get d then Child2 else Child1].

Definition consistent_world {U} (w : World DoubleIconButton U) : Prop :=
  consistent (widget w).

End Double.

(* ===================================================================== *)
(** ** Sample inputs                                                     *)
(* ===================================================================== *)
Module Samples.

(** A package directory with the icons of the check box and of the
    player, and an icon of the user's beside the program. *)
Definition here : string := "/site-packages/chichitk".

Definition files : list string :=
  ["icon.png"; "play.png"; "pause.png";
   "/site-packages/chichitk/icons/box.png";
   "/site-packages/chichitk/icons/checkbox.png"]%string.

Definition fs : disk := fun path => existsb (String.eqb path) files.

(** [IconButton(master, "icon.png", command)] with the default colours. *)
Definition new_button : IconButton :=
  match IconButton_new fs "icon.png" default_kwargs with
  | Ok b => b
  | Raise _ => BaseButton_init default_kwargs
  end.

(** The same button after [turn_off()], with a command that does nothing. *)
Definition switched_off : World IconButton unit :=
  MkWorld (exec turn_off new_button) tt [].

Definition do_nothing : kind unit := Plain (ret tt).

(** [DoubleIconButton(master, "play.png", "pause.png", play, stop)] *)
Definition play_command : user_command unit := MkCommand "play_function" None (ret tt).
Definition stop_command : user_command unit := MkCommand "stop_function" None (ret tt).

Definition play_button : World Double.DoubleIconButton unit :=
  MkWorld
    (match Double.DoubleIconButton_new fs "play.png" "pause.png" None None no_keywords with
     | Ok d => d
     | Raise _ => Double.MkDouble false new_button new_button [Double.Child1]
     end) tt [].

End Samples.


(* ===================================================================== *)
(** ** pdf_display.py: PdfDisplay                                        *)
(* ===================================================================== *)
Module Pdf.
#[local] Set Warnings "-inexact-float".

(** Python numbers.  [scale_fact] starts as the int 1 and is a float
    after the first zoom; an int that meets a float in [*] or [/] is
    converted first, so binary64 values carry both (exactly, for the
    ints below 2^53 that occur here). *)
Definition float_of_int (z : Z) : float :=
  if (z <? 0)%Z then PrimFloat.opp (PrimFloat.of_uint63 (Uint63.of_Z (- z)))
  else PrimFloat.of_uint63 (Uint63.of_Z z).

(** [int(x)] for a float: truncation towards zero; infinities and NaN raise. *)
Definition int (x : float) : outcome Z :=
  match Prim2SF x with
  | S754_zero _ => Ok 0%Z
  | S754_finite sign m e =>
      let magnitude := Z.shiftl (Z.pos m) e in
      Ok (if sign then (- magnitude)%Z else magnitude)
  | S754_infinity _ => Raise OverflowError
  | S754_nan => Raise ValueError
  end.

(** What [Thread(target=...)] can be handed here: the bound method
    [self.render_pdf], or the value a call of it returns. *)
Inductive pyvalue : Set :=
| PyNone
| Bound_render_pdf.

Section Fitz.
(** PyMuPDF is external: a document is its list of pages, and
    [page.getPixmap(dpi=...)] followed by [getImageData("ppm")] gives
    the bytes of the page image. *)
Context {page ppm : Type}.
Variable fitz_open : string -> option (list page).
Variable getImageData : page -> Z -> ppm.

(** [PhotoImage(data=image)]: Tk names each image it creates
    (pyimage1, pyimage2, ...); the name is the object's identity. *)
Record PhotoImage : Type := MkPhoto { image_name : nat; image_data : ppm }.

(** The content of the [Text] widget that shows the pages. *)
Inductive text_item : Type :=
| Newlines                         (* ['\n\n'] *)
| Embedded (img : PhotoImage).     (* [image_create('end', image=img)] *)

Record PdfFrame : Type := MkFrame {
  frame_width : Z;
  frame_height : Z;
  pdf_text : list text_item;
  text_disabled : bool;
  destroyed : bool }.

Record PdfDisplay : Type := MkDisplay {
  zoom_fact : float;                      (* never changes *)
  scale_fact : float;                     (* changes when zooming in and out *)
  img_object_list : list PhotoImage;
  pdf_frame : option PdfFrame;            (* the latest frame, once a pdf is loaded *)
  active : bool;                          (* True when a pdf is loaded *)
  filename : option string;               (* unset until [show_pdf] *)
  width : Z;
  height : Z;
  label_text : string;
  label_packed : bool;
  buttons_placed : bool }.

Definition set_scale_fact (v : float) (d : PdfDisplay) : PdfDisplay :=
  MkDisplay (zoom_fact d) v (img_object_list d) (pdf_frame d) (active d) (filename d)
    (width d) (height d) (label_text d) (label_packed d) (buttons_placed d).
Definition set_img_object_list (v : list PhotoImage) (d : PdfDisplay) : PdfDisplay :=
  MkDisplay (zoom_fact d) (scale_fact d) v (pdf_frame d) (active d) (filename d)
    (width d) (height d) (label_text d) (label_packed d) (buttons_placed d).
Definition set_pdf_frame (v : option PdfFrame) (d : PdfDisplay) : PdfDisplay :=
  MkDisplay (zoom_fact d) (scale_fact d) (img_object_list d) v (active d) (filename d)
    (width d) (height d) (label_text d) (label_packed d) (buttons_placed d).
Definition set_active (v : bool) (d : PdfDisplay) : PdfDisplay :=
  MkDisplay (zoom_fact d) (scale_fact d) (img_object_list d) (pdf_frame d) v (filename d)
    (width d) (height d) (label_text d) (label_packed d) (buttons_placed d).
Definition set_filename (v : option string) (d : PdfDisplay) : PdfDisplay :=
  MkDisplay (zoom_fact d) (scale_fact d) (img_object_list d) (pdf_frame d) (active d) v
    (width d) (height d) (label_text d) (label_packed d) (buttons_placed d).
Definition set_label_text (v : string) (d : PdfDisplay) : PdfDisplay :=
  MkDisplay (zoom_fact d) (scale_fact d) (img_object_list d) (pdf_frame d) (active d)
    (filename d) (width d) (height d) v (label_packed d) (buttons_placed d).
Definition set_label_packed (v : bool) (d : PdfDisplay) : PdfDisplay :=
  MkDisplay (zoom_fact d) (scale_fact d) (img_object_list d) (pdf_frame d) (active d)
    (filename d) (width d) (height d) (label_text d) v (buttons_placed d).
Definition set_buttons_placed (v : bool) (d : PdfDisplay) : PdfDisplay :=
  MkDisplay (zoom_fact d) (scale_fact d) (img_object_list d) (pdf_frame d) (active d)
    (filename d) (width d) (height d) (label_text d) (label_packed d) v.

(** Work done on behalf of the widget, with the thread that did it. *)
Inductive work : Type :=
| Render (pg : page) (dpi : Z).

(** The interpreter around the widget: Tk's image counter, the running
    thread, the targets of the threads started so far (thread [n + 1] is
    entry [n]; thread 0 is the caller's), and who did which work. *)
Record Runtime : Type := MkRuntime {
  display : PdfDisplay;
  images_created : nat;
  current_thread : nat;
  threads : list pyvalue;
  trace : list (nat * work) }.

Definition display_lens : Lens Runtime PdfDisplay :=
  MkLens display
    (fun d rt => MkRuntime d (images_created rt) (current_thread rt) (threads rt) (trace rt)).

Definition set_current_thread (t : nat) (rt : Runtime) : Runtime :=
  MkRuntime (display rt) (images_created rt) t (threads rt) (trace rt).

(** [PdfDisplay.__init__] *)
Definition PdfDisplay_new (view_width : Z) (zoom_fact : float) (height : Z) : PdfDisplay :=
  {| zoom_fact := zoom_fact;
     scale_fact := 1;
     img_object_list := [];
     pdf_frame := None;
     active := false;
     filename := None;
     width := view_width;
     height := height;
     label_text := "No File Loaded";
     label_packed := true;
     buttons_placed := false |}.

(** [PhotoImage(data=image)] *)
Definition new_PhotoImage (data : ppm) : M Runtime PhotoImage :=
  rt <- gets (fun rt => rt) ;;
  let img := MkPhoto (S (images_created rt)) data in
  modify (fun rt => MkRuntime (display rt) (S (images_created rt)) (current_thread rt)
                      (threads rt) (trace rt)) ;;
  ret img.

Definition record_work (w : work) : M Runtime unit :=
  modify (fun rt => MkRuntime (display rt) (images_created rt) (current_thread rt)
                      (threads rt) (trace rt ++ [(current_thread rt, w)])).

(** [PdfDisplay.position_buttons] *)
Definition position_buttons : M PdfDisplay unit :=
  d <- gets (fun d => d) ;;
  if active d then
    match pdf_frame d with
    | Some _ => modify (set_buttons_placed true)
    | None => raise AttributeError
    end
  else ret tt.

(** [PdfDisplay.remove_all]: removes pdf, buttons, and label. *)
Definition remove_all : M PdfDisplay unit :=
  modify (set_active false) ;;
  modify (set_label_packed false) ;;
  modify (set_buttons_placed false) ;;
  d <- gets (fun d => d) ;;
  match pdf_frame d with
  | Some fr =>
      modify (set_pdf_frame
        (Some (MkFrame (frame_width fr) (frame_height fr) (pdf_text fr)
                 (text_disabled fr) true)))
  | None => ret tt
  end.

(** [self.pdf_text.insert] / [image_create] on the current frame. *)
Definition text_append (it : text_item) : M PdfDisplay unit :=
  d <- gets (fun d => d) ;;
  match pdf_frame d with
  | Some fr =>
      modify (set_pdf_frame
        (Some (MkFrame (frame_width fr) (frame_height fr) (pdf_text fr ++ [it])
                 (text_disabled fr) (destroyed fr))))
  | None => raise AttributeError
  end.

Definition text_disable : M PdfDisplay unit :=
  d <- gets (fun d => d) ;;
  match pdf_frame d with
  | Some fr =>
      modify (set_pdf_frame
        (Some (MkFrame (frame_width fr) (frame_height fr) (pdf_text fr) true (destroyed fr))))
  | None => raise AttributeError
  end.

(** [enumerate(l)] *)
Definition enumerate {A} (l : list A) : list (nat * A) := combine (seq 0 (length l)) l.

(** [PdfDisplay.render_pdf]: loads pdf from [self.filename]. *)
Definition render_pdf : M Runtime pyvalue :=
  (* Create image objects from pdf pages *)
  zoom display_lens (modify (set_img_object_list [])) ;;
  d <- gets display ;;
  fname <- match filename d with
           | Some f => ret f
           | None => raise AttributeError
           end ;;
  pages <- match fitz_open fname with
           | Some pages => ret pages
           | None => raise FitzError
           end ;;
  Button.for_each pages (fun pg =>
    d <- gets display ;;
    dpi <- lift (int (72 * zoom_fact d * scale_fact d)) ;;
    record_work (Render pg dpi) ;;
    img <- new_PhotoImage (getImageData pg dpi) ;;
    zoom display_lens
      (modify (fun d => set_img_object_list (img_object_list d ++ [img]) d))) ;;
  (* Create new pdf frame *)
  d <- gets display ;;
  width <- lift (int (float_of_int (width d) * scale_fact d)) ;;
  height <- lift (int (float_of_int (height d) * scale_fact d)) ;;
  zoom display_lens (
    modify (set_pdf_frame (Some (MkFrame width height [] false false))) ;;
    position_buttons ;;
    (* Add pages to text box *)
    d <- gets (fun d => d) ;;
    Button.for_each (enumerate (img_object_list d)) (fun i_img =>
      (if (0 <? fst i_img)%nat then text_append Newlines else ret tt) ;;
      text_append (Embedded (snd i_img))) ;;
    text_disable) ;;
  ret PyNone.

(** [Thread(target=target).start()].  [Thread.run] calls the target only
    if it is not [None].  A thread that has a target is shown running to
    completion at once, which is one of its schedules; an exception in
    it does not reach the thread that started it. *)
Definition Thread_start (target : pyvalue) : M Runtime unit :=
  rt <- gets (fun rt => rt) ;;
  modify (fun rt => MkRuntime (display rt) (images_created rt) (current_thread rt)
                      (threads rt ++ [target]) (trace rt)) ;;
  match target with
  | PyNone => ret tt
  | Bound_render_pdf =>
      modify (set_current_thread (S (length (threads rt)))) ;;
      (fun rt' => (Ok tt, snd (render_pdf rt'))) ;;
      modify (set_current_thread (current_thread rt))
  end.

(** [PdfDisplay.show_pdf(filename)]: the argument of [Thread] is the
    call [self.render_pdf()], evaluated before the thread exists. *)
Definition show_pdf (fname : string) : M Runtime unit :=
  zoom display_lens (
    modify (set_scale_fact 1) ;;   (* reset zoom *)
    modify (set_filename (Some fname)) ;;
    remove_all ;;
    modify (set_active true)) ;;
  target <- render_pdf ;;
  Thread_start target.

(** [PdfDisplay.zoom_in] *)
Definition zoom_in : M Runtime unit :=
  zoom display_lens (
    modify (fun d => set_scale_fact (scale_fact d * 1.1)%float d) ;;
    remove_all ;;
    modify (set_active true)) ;;
  target <- render_pdf ;;
  Thread_start target.

(** [PdfDisplay.zoom_out] *)
Definition zoom_out : M Runtime unit :=
  zoom display_lens (
    modify (fun d => set_scale_fact (scale_fact d / 1.1)%float d) ;;
    remove_all ;;
    modify (set_active true)) ;;
  target <- render_pdf ;;
  Thread_start target.

(** [PdfDisplay.remove_pdf] *)
Definition remove_pdf : M PdfDisplay unit :=
  remove_all ;;
  modify (set_label_text "No File Loaded") ;;
  modify (set_label_packed true).

(** [PdfDisplay.to_loading(text)] *)
Definition to_loading (text : string) : M PdfDisplay unit :=
  remove_all ;;
  modify (set_label_text text) ;;
  modify (set_label_packed true).

(** The images a render creates for [pages] when Tk has created [n]
    images before: one per page, in page order. *)
Fixpoint page_images (n : nat) (dpi : Z) (pages : list page) : list PhotoImage :=
  match pages with
  | [] => []
  | pg :: rest => MkPhoto (S n) (getImageData pg dpi) :: page_images (S n) dpi rest
  end.

(** The text box for a list of images: two newlines before every page
    but the first. *)
Definition page_text (imgs : list PhotoImage) : list text_item :=
  match imgs with
  | [] => []
  | img :: rest => Embedded img :: flat_map (fun i => [Newlines; Embedded i]) rest
  end.

Definition work_dpi (w : work) : Z := match w with Render _ dpi => dpi end.
Definition work_page (w : work) : page := match w with Render pg _ => pg end.

(** Every image the widget holds was created by Tk at some point. *)
Definition names_bounded (rt : Runtime) : Prop :=
  Forall (fun img => (image_name img <= images_created rt)%nat)
         (img_object_list (display rt)).

(** The runtime with the page-image list emptied. *)
Definition clear_images (rt : Runtime) : Runtime :=
  update display_lens (set_img_object_list [] (display rt)) rt.

(** What the render loop sees and writes. *)
Definition render_view (rt : Runtime) :=
  (current_thread rt, threads rt, zoom_fact (display rt), scale_fact (display rt),
   filename (display rt), img_object_list (display rt), images_created rt, trace rt).

(** [rt] is a state during or after a [render_pdf] that started in
    [rt0]: every image in the list was created since, and all work
    recorded since was done by the thread that ran in [rt0], at the
    resolution [rt0] asks for. *)
Definition rendered_by (rt0 rt : Runtime) : Prop :=
  current_thread rt = current_thread rt0 /\
  threads rt = threads rt0 /\
  zoom_fact (display rt) = zoom_fact (display rt0) /\
  scale_fact (display rt) = scale_fact (display rt0) /\
  filename (display rt) = filename (display rt0) /\
  (images_created rt0 <= images_created rt)%nat /\
  Forall (fun img => (images_created rt0 < image_name img <= images_created rt)%nat)
         (img_object_list (display rt)) /\
  exists done, trace rt = trace rt0 ++ done /\
    Forall (fun e => fst e = current_thread rt0 /\
                     int (72 * zoom_fact (display rt0) * scale_fact (display rt0))
                       = Ok (work_dpi (snd e))) done.

(** [rt'] holds nothing but images created after [rt]. *)
Definition only_new_images (rt rt' : Runtime) : Prop :=
  Forall (fun img => (images_created rt < image_name img <= images_created rt')%nat)
         (img_object_list (display rt')).

(** All work recorded between [rt] and [rt'] was done by the thread
    running in [rt], at the resolution of scale factor [s]. *)
Definition drawn_at (s : float) (rt rt' : Runtime) : Prop :=
  exists done, trace rt' = trace rt ++ done /\
    Forall (fun e => fst e = current_thread rt /\
                     int (72 * zoom_fact (display rt) * s) = Ok (work_dpi (snd e))) done.

(** Every thread started between [rt] and [rt'] was given [None] as its
    target. *)
Definition started_without_target (rt rt' : Runtime) : Prop :=
  exists started, threads rt' = threads rt ++ started /\ Forall (eq PyNone) started.

(** [rt'] shows the whole document, drawn afresh since [rt]: one new
    image per page in page order, a new frame of [w] by [h] whose text
    box holds exactly those images, one piece of work per page done by
    the thread running in [rt], and the widget marked loaded. *)
Definition shows_pages (dpi w h : Z) (pages : list page) (rt rt' : Runtime) : Prop :=
  img_object_list (display rt') = page_images (images_created rt) dpi pages /\
  pdf_frame (display rt') =
    Some (MkFrame w h (page_text (page_images (images_created rt) dpi pages)) true false) /\
  trace rt' = trace rt ++ map (fun pg => (current_thread rt, Render pg dpi)) pages /\
  active (display rt') = true /\
  buttons_placed (display rt') = true /\
  label_packed (display rt') = false.

End Fitz.

Arguments PhotoImage ppm : clear implicits.
Arguments text_item ppm : clear implicits.
Arguments PdfFrame ppm : clear implicits.
Arguments PdfDisplay ppm : clear implicits.
Arguments work page : clear implicits.
Arguments Runtime page ppm : clear implicits.

End Pdf.

Module PdfSamples.

(** A two-page document at "a.pdf"; pages are numbered, and the image of
    a page records the page and the resolution it was drawn at. *)
Definition fitz_open (fname : string) : option (list nat) :=
  if String.eqb fname "a.pdf" then Some [1; 2]%nat else None.

Definition getImageData (pg : nat) (dpi : Z) : nat * Z := (pg, dpi).

(** [PdfDisplay(master, bg, fg)] in a fresh interpreter. *)
Definition fresh : Pdf.Runtime nat (nat * Z) :=
  Pdf.MkRuntime (Pdf.PdfDisplay_new 75 1 600) 0 0 [] [].

(** ... after [show_pdf("a.pdf")]. *)
Definition loaded : Pdf.Runtime nat (nat * Z) :=
  exec (Pdf.show_pdf fitz_open getImageData "a.pdf") fresh.

(** A display that has its file name set but has drawn nothing yet. *)
Definition unloaded : Pdf.Runtime nat (nat * Z) :=
  update Pdf.display_lens
    (Pdf.set_active true (Pdf.set_filename (Some "a.pdf"%string) (Pdf.display fresh)))
    fresh.

End PdfSamples.

(* ===================================================================== *)
(** ** Reasoning rules for method bodies                                 *)
(* ===================================================================== *)
Module Rules.

Lemma exec_bind {S A B} (m : M S A) (k : A -> M S B) s :
  exec (bind m k) s =
  match m s with
  | (Ok a, s') => exec (k a) s'
  | (Raise _, s') => s'
  end.
Proof. unfold exec, bind. destruct (m s) as [[a|e] s']; reflexivity. Qed.

Section Frame.
Context {S X : Type} (f : S -> X).

Lemma keeps_ret {A} (a : A) : keeps f (ret a).
Proof. intros s; reflexivity. Qed.

Lemma keeps_raise {A} (e : exn) : keeps f (@raise S A e).
Proof. intros s; reflexivity. Qed.

Lemma keeps_lift {A} (o : outcome A) : keeps f (@lift S A o).
Proof. intros s; reflexivity. Qed.

Lemma keeps_gets {A} (g : S -> A) : keeps f (gets g).
Proof. intros s; reflexivity. Qed.

Lemma keeps_modify (g : S -> S) : (forall s, f (g s) = f s) -> keeps f (modify g).
Proof. intros H s; apply H. Qed.

Lemma keeps_bind {A B} (m : M S A) (k : A -> M S B) :
  keeps f m -> (forall a, keeps f (k a)) -> keeps f (bind m k).
Proof.
  intros Hm Hk s. rewrite exec_bind.
  specialize (Hm s). unfold exec in Hm.
  destruct (m s) as [[a|e] s']; cbn in *.
  - rewrite <- Hm. apply Hk.
  - exact Hm.
Qed.

Lemma keeps_getitem {A} (l : list A) i : keeps f (getitem l i).
Proof. unfold getitem. destruct (l !! i); [apply keeps_ret | apply keeps_raise]. Qed.

Lemma keeps_getitem2 {A} (t : list (list A)) i j : keeps f (getitem2 t i j).
Proof. apply keeps_bind; [apply keeps_getitem | intros; apply keeps_getitem]. Qed.

Lemma keeps_setitem2 {A} (t : list (list A)) i j v : keeps f (setitem2 t i j v).
Proof.
  apply keeps_bind; [apply keeps_getitem | intros row].
  destruct (j <? length row)%nat; [apply keeps_ret | apply keeps_raise].
Qed.

Lemma keeps_for_each {A} (l : list A) (body : A -> M S unit) :
  (forall x, keeps f (body x)) -> keeps f (for_each l body).
Proof.
  intros H. induction l as [|x l IH]; cbn.
  - apply keeps_ret.
  - apply keeps_bind; [apply H | intros; apply IH].
Qed.

(** A method of a component keeps whatever does not look at the component. *)
Lemma keeps_zoom {A B} (L : Lens S A) (m : M A B) :
  (forall a s, f (update L a s) = f s) -> keeps f (zoom L m).
Proof.
  intros H s. unfold exec, zoom. destruct (m (view L s)); cbn. apply H.
Qed.

(** ... and whatever it keeps of the component itself. *)
Lemma keeps_zoom_inner {A B Y} (L : Lens S A) (g : A -> Y) (m : M A B) :
  keeps g m ->
  (forall a s, g a = g (view L s) -> f (update L a s) = f s) ->
  keeps f (zoom L m).
Proof.
  intros Hm H s. unfold exec, zoom.
  specialize (Hm (view L s)). unfold exec in Hm.
  destruct (m (view L s)); cbn in *. apply H. exact Hm.
Qed.

End Frame.

Section Triples.
Context {S : Type}.

Lemma hoare_ret {A} (P : S -> Prop) (a : A) Q E :
  (forall s, P s -> Q a s) -> hoare P (ret a) Q E.
Proof. intros H s Hs; cbn; auto. Qed.

Lemma hoare_raise {A} (P : S -> Prop) e (Q : A -> S -> Prop) (E : S -> Prop) :
  (forall s, P s -> E s) -> hoare P (raise e) Q E.
Proof. intros H s Hs; cbn; auto. Qed.

Lemma hoare_lift {A} (P : S -> Prop) (o : outcome A) (Q : A -> S -> Prop) (E : S -> Prop) :
  (forall s, P s -> match o with Ok a => Q a s | Raise _ => E s end) ->
  hoare P (lift o) Q E.
Proof. intros H s Hs. specialize (H s Hs). unfold lift. destruct o; auto. Qed.

Lemma hoare_gets {A} (P : S -> Prop) (g : S -> A) Q E :
  (forall s, P s -> Q (g s) s) -> hoare P (gets g) Q E.
Proof. intros H s Hs; cbn; auto. Qed.

Lemma hoare_modify (P : S -> Prop) (g : S -> S) Q E :
  (forall s, P s -> Q tt (g s)) -> hoare P (modify g) Q E.
Proof. intros H s Hs; cbn; auto. Qed.

Lemma hoare_bind {A B} (P : S -> Prop) (m : M S A) (k : A -> M S B) R Q E :
  hoare P m R E -> (forall a, hoare (R a) (k a) Q E) -> hoare P (bind m k) Q E.
Proof.
  intros Hm Hk s Hs. specialize (Hm s Hs). unfold bind.
  destruct (m s) as [[a|e] s']; [apply Hk; exact Hm | exact Hm].
Qed.

Lemma hoare_weaken {A} (P P' : S -> Prop) (m : M S A) (Q Q' : A -> S -> Prop) (E E' : S -> Prop) :
  hoare P' m Q' E' ->
  (forall s, P s -> P' s) -> (forall a s, Q' a s -> Q a s) -> (forall s, E' s -> E s) ->
  hoare P m Q E.
Proof.
  intros H HP HQ HE s Hs. specialize (H s (HP s Hs)).
  destruct (m s) as [[a|e] s']; auto.
Qed.

(** A loop whose body maintains [I] on both outcomes maintains it. *)
Lemma hoare_for_each {A} (I : S -> Prop) (l : list A) (body : A -> M S unit) :
  (forall x, hoare I (body x) (fun _ => I) I) ->
  hoare I (for_each l body) (fun _ => I) I.
Proof.
  intros H. induction l as [|x l IH]; cbn.
  - apply hoare_ret; auto.
  - apply (hoare_bind _ _ _ (fun _ => I)); [apply H | intros ?; apply IH].
Qed.

Lemma hoare_zoom {A B} (L : Lens S A) (m : M A B)
    (P : S -> Prop) (P' : A -> Prop) (Q : B -> S -> Prop) (E : S -> Prop) s0 :
  hoare P' m (fun b a => Q b (update L a s0)) (fun a => E (update L a s0)) ->
  P s0 -> P' (view L s0) ->
  match zoom L m s0 with
  | (Ok b, s') => Q b s'
  | (Raise _, s') => E s'
  end.
Proof.
  intros Hm _ HP'. specialize (Hm _ HP'). unfold zoom.
  destruct (m (view L s0)) as [[b|e] a]; exact Hm.
Qed.

Lemma maintains_hoare {A} (I : S -> Prop) (m : M S A) :
  maintains I m <-> hoare I m (fun _ => I) I.
Proof.
  unfold maintains, hoare, exec. split; intros H s Hs; specialize (H s Hs);
    destruct (m s) as [[a|e] s']; exact H.
Qed.

Lemma maintains_ret {A} (I : S -> Prop) (a : A) : maintains I (ret a).
Proof. intros s H; exact H. Qed.

Lemma maintains_gets {A} (I : S -> Prop) (g : S -> A) : maintains I (gets g).
Proof. intros s H; exact H. Qed.

Lemma maintains_modify (I : S -> Prop) (g : S -> S) :
  (forall s, I s -> I (g s)) -> maintains I (modify g).
Proof. intros Hg s H; apply Hg, H. Qed.

Lemma maintains_bind {A B} (I : S -> Prop) (m : M S A) (k : A -> M S B) :
  maintains I m -> (forall a, maintains I (k a)) -> maintains I (bind m k).
Proof.
  intros Hm Hk s H. rewrite exec_bind.
  specialize (Hm s H). unfold exec in Hm.
  destruct (m s) as [[a|e] s']; cbn in *; [apply Hk; exact Hm | exact Hm].
Qed.

Lemma maintains_lift {A} (I : S -> Prop) (o : outcome A) : maintains I (lift o).
Proof. intros s H; exact H. Qed.

Lemma maintains_keeps {A X} (f : S -> X) (I : X -> Prop) (m : M S A) :
  keeps f m -> maintains (fun s => I (f s)) m.
Proof. intros Hk s H. rewrite (Hk s). exact H. Qed.

Lemma maintains_zoom {W A} (L : Lens W S) (I : S -> Prop) (m : M S A) :
  (forall a w, view L (update L a w) = a) ->
  maintains I m -> maintains (fun w => I (view L w)) (zoom L m).
Proof.
  intros HL Hm w H. unfold exec, zoom.
  specialize (Hm (view L w) H). unfold exec in Hm.
  destruct (m (view L w)); cbn in *. rewrite HL. exact Hm.
Qed.

Lemma maintains_for_each {A} (I : S -> Prop) (l : list A) (body : A -> M S unit) :
  (forall x, maintains I (body x)) -> maintains I (for_each l body).
Proof.
  intros H. induction l as [|x l IH]; cbn.
  - apply maintains_ret.
  - apply maintains_bind; [apply H | intros; apply IH].
Qed.

End Triples.

(** Reading a run that returned backwards: each step returned, and the
    next one started from where it left the state. *)
Section Returned.
Context {S : Type}.

Lemma bind_returned {A B} (m : M S A) (k : A -> M S B) s b s'' :
  bind m k s = (Ok b, s'') -> exists a s', m s = (Ok a, s') /\ k a s' = (Ok b, s'').
Proof. unfold bind. destruct (m s) as [[a|e] s']; [eauto | discriminate]. Qed.

Lemma ret_returned {A} (a b : A) (s s' : S) : ret a s = (Ok b, s') -> b = a /\ s' = s.
Proof. intros [= <- <-]. auto. Qed.

Lemma gets_returned {A} (f : S -> A) s a s' : gets f s = (Ok a, s') -> a = f s /\ s' = s.
Proof. intros [= <- <-]. auto. Qed.

Lemma modify_returned (g : S -> S) s u s' : modify g s = (Ok u, s') -> s' = g s.
Proof. unfold modify. intros H. inversion H. reflexivity. Qed.

Lemma lift_returned {A} (o : outcome A) (s s' : S) a :
  lift o s = (Ok a, s') -> o = Ok a /\ s' = s.
Proof. intros [= -> <-]. auto. Qed.

Lemma getitem_returned {A} (l : list A) i (s s' : S) a :
  getitem l i s = (Ok a, s') -> l !! i = Some a /\ s' = s.
Proof. unfold getitem. destruct (l !! i); intros [= <- <-]; auto. Qed.

Lemma getitem2_returned {A} (t : list (list A)) i j (s s' : S) a :
  getitem2 t i j s = (Ok a, s') ->
  (exists row, t !! i = Some row /\ row !! j = Some a) /\ s' = s.
Proof.
  unfold getitem2. intros H. apply bind_returned in H as (row & s1 & H1 & H2).
  apply getitem_returned in H1 as [H1 ->]. apply getitem_returned in H2 as [H2 ->].
  eauto.
Qed.

Lemma setitem2_returned {A} (t : list (list A)) i j v (s s' : S) t' :
  setitem2 t i j v s = (Ok t', s') ->
  (exists row, t !! i = Some row /\ t' = <[i := <[j := v]> row]> t) /\ s' = s.
Proof.
  unfold setitem2. intros H. apply bind_returned in H as (row & s1 & H1 & H2).
  apply getitem_returned in H1 as [H1 ->].
  destruct (j <? length row)%nat; [| discriminate H2].
  apply ret_returned in H2 as [-> ->]. eauto.
Qed.

End Returned.

Lemma and_then_returned {A B} (o : outcome A) (k : A -> outcome B) b :
  and_then o k = Ok b -> exists a, o = Ok a /\ k a = Ok b.
Proof. unfold and_then. destruct o as [a|e]; [eauto | discriminate]. Qed.

End Rules.

Import Rules.

Ltac frame_step :=
  lazymatch goal with
  | |- keeps ?f (if true then ?m else _) => change (keeps f m)
  | |- keeps ?f (if false then _ else ?m) => change (keeps f m)
  | |- keeps ?f (ret _) => apply keeps_ret
  | |- keeps _ (raise _) => apply keeps_raise
  | |- keeps _ (lift _) => apply keeps_lift
  | |- keeps _ (gets _) => apply keeps_gets
  | |- keeps _ (getitem _ _) => apply keeps_getitem
  | |- keeps _ (getitem2 _ _ _) => apply keeps_getitem2
  | |- keeps _ (setitem2 _ _ _ _) => apply keeps_setitem2
  | |- keeps _ (bind _ _) => apply keeps_bind; [| intros ?]
  | |- keeps _ (modify _) => apply keeps_modify; intros ?
  | |- keeps _ (for_each _ _) => apply keeps_for_each; intros ?
  | |- keeps _ (if ?c then _ else _) => destruct c
  | |- keeps _ (match ?c with _ => _ end) => destruct c
  end.
Ltac frame := repeat frame_step.

Ltac inv_step :=
  lazymatch goal with
  | |- maintains _ (ret _) => apply maintains_ret
  | |- maintains _ (gets _) => apply maintains_gets
  | |- maintains _ (lift _) => apply maintains_lift
  | |- maintains _ (bind _ _) => apply maintains_bind; [| intros ?]
  | |- maintains _ (modify _) => apply maintains_modify; intros ? ?
  | |- maintains _ (if ?c then _ else _) => destruct c
  | |- maintains _ (match ?c with _ => _ end) => destruct c
  end.
Ltac invariant := repeat inv_step.

(** Take apart the hypotheses that say a method body returned. *)
Ltac returned_step :=
  match goal with
  | H : bind _ _ _ = (Ok _, _) |- _ =>
      let a := fresh "a" in
      let s := fresh "s" in
      let H1 := fresh "H" in
      apply bind_returned in H as (a & s & H1 & H); cbv beta in H;
      revert H; repeat returned_step;
      let Hk := fresh "Hk" in intros Hk
  | H : gets _ _ = (Ok _, _) |- _ => apply gets_returned in H as [? ?]; subst
  | H : modify _ _ = (Ok _, _) |- _ => apply modify_returned in H; subst
  | H : ret _ _ = (Ok _, _) |- _ => apply ret_returned in H as [? ?]; subst
  | H : raise _ _ = (Ok _, _) |- _ => discriminate H
  | H : lift _ _ = (Ok _, _) |- _ =>
      apply lift_returned in H as [H ?]; subst; cbn in H;
      try discriminate H; try (injection H as <-)
  | H : getitem2 _ _ _ _ = (Ok _, _) |- _ =>
      let row := fresh "row" in
      let Hr := fresh "H" in
      apply getitem2_returned in H as [(row & Hr & H) ?]; subst;
      cbn in Hr; injection Hr as <-; cbn in H; injection H as <-
  | H : setitem2 _ _ _ _ _ = (Ok _, _) |- _ =>
      let row := fresh "row" in
      let Hr := fresh "H" in
      apply setitem2_returned in H as [(row & Hr & H) ?];
      cbn in Hr; injection Hr as <-; cbn in H; subst
  | H : for_each _ _ _ = (Ok _, _) |- _ => cbn [for_each] in H
  end.
Ltac returned := repeat returned_step.

(** Read a goal about the final state as a frame property of the method. *)
Ltac as_keeps :=
  lazymatch goal with
  | |- ?f (exec ?m ?s) = ?f ?s => refine ((_ : keeps f m) s)
  end.

(* ===================================================================== *)
(** ** Buttons: what each method leaves alone                            *)
(* ===================================================================== *)
Module ButtonFacts.

Section Frames.
Context {X : Type} (f : IconButton -> X).

Lemma config_colors_keeps :
  (forall l b, f (set_look l b) = f b) -> keeps f config_colors.
Proof. intros Hl. unfold config_colors, lookup_colors. frame. apply Hl. Qed.

Lemma set_color_keeps color which sel hover :
  (forall l b, f (set_look l b) = f b) ->
  (forall t b, f (set_bg_colors t b) = f b) ->
  (forall t b, f (set_fg_colors t b) = f b) ->
  (forall t b, f (set_bar_colors t b) = f b) ->
  (forall t b, f (set_images t b) = f b) ->
  keeps f (set_color color which sel hover).
Proof.
  intros Hl Hbg Hfg Hbar Him. unfold set_color.
  frame; auto using config_colors_keeps.
Qed.

Lemma turn_on_keeps :
  (forall l b, f (set_look l b) = f b) ->
  (forall v b, f (set_active v b) = f b) ->
  keeps f turn_on.
Proof. intros Hl Ha. unfold turn_on. frame; auto using config_colors_keeps. Qed.

Lemma turn_off_keeps :
  (forall l b, f (set_look l b) = f b) ->
  (forall v b, f (set_active v b) = f b) ->
  keeps f turn_off.
Proof. intros Hl Ha. unfold turn_off. frame; auto using config_colors_keeps. Qed.

Lemma select_keeps :
  (forall l b, f (set_look l b) = f b) ->
  (forall v b, f (set_selected v b) = f b) ->
  keeps f select.
Proof. intros Hl Hs. unfold select. frame; auto using config_colors_keeps. Qed.

Lemma deselect_keeps :
  (forall l b, f (set_look l b) = f b) ->
  (forall v b, f (set_selected v b) = f b) ->
  keeps f deselect.
Proof. intros Hl Hs. unfold deselect. frame; auto using config_colors_keeps. Qed.

Lemma hover_enter_keeps :
  (forall l b, f (set_look l b) = f b) ->
  (forall v b, f (set_hovering v b) = f b) ->
  (forall v b, f (set_tool_tip v b) = f b) ->
  keeps f hover_enter.
Proof. intros Hl Hh Ht. unfold hover_enter. frame; auto using config_colors_keeps. Qed.

Lemma hover_leave_keeps :
  (forall l b, f (set_look l b) = f b) ->
  (forall v b, f (set_hovering v b) = f b) ->
  (forall v b, f (set_tool_tip v b) = f b) ->
  keeps f hover_leave.
Proof. intros Hl Hh Ht. unfold hover_leave. frame; auto using config_colors_keeps. Qed.

End Frames.

(** The handlers of the pointer set the flag whatever else happens. *)
Lemma hover_enter_hovering b : hovering (exec hover_enter b) = true.
Proof.
  unfold hover_enter. rewrite exec_bind. cbn [gets].
  destruct (hovering b) eqn:E; cbn [negb].
  - exact E.
  - rewrite exec_bind. cbn [modify].
    change true with (hovering (set_hovering true b)) at 2.
    generalize (set_hovering true b). change (keeps hovering
      (label0 <- getitem (popup_labels b) 0 ;;
       (if truthy label0
        then text <- getitem (popup_labels b) (idx (active b)) ;; modify (set_tool_tip text)
        else ret tt) ;;
       (if active b then config_colors else ret tt))).
    frame; auto using config_colors_keeps.
Qed.

Lemma hover_leave_hovering b : hovering (exec hover_leave b) = false.
Proof.
  unfold hover_leave. rewrite exec_bind. cbn [gets].
  destruct (hovering b) eqn:E.
  - rewrite exec_bind. cbn [modify].
    change false with (hovering (set_hovering false b)) at 2.
    generalize (set_hovering false b). change (keeps hovering
      (label0 <- getitem (popup_labels b) 0 ;;
       (if truthy label0 then modify (set_tool_tip None) else ret tt) ;;
       (if active b then config_colors else ret tt))).
    frame; auto using config_colors_keeps.
  - exact E.
Qed.

Lemma select_selected b :
  selected (exec select b) = if selectable b then true else selected b.
Proof.
  unfold select. rewrite exec_bind. cbn [gets].
  destruct (selectable b), (selected b) eqn:E; cbn [andb negb]; try exact E.
  rewrite exec_bind. cbn [modify].
  apply (config_colors_keeps selected). reflexivity.
Qed.

Lemma deselect_selected b : selected (exec deselect b) = false.
Proof.
  unfold deselect. rewrite exec_bind. cbn [gets].
  destruct (selected b) eqn:E; [| exact E].
  rewrite exec_bind. cbn [modify].
  apply (config_colors_keeps selected). reflexivity.
Qed.

End ButtonFacts.

Import ButtonFacts.

(* ===================================================================== *)
(** ** A button in its world                                             *)
(* ===================================================================== *)
Module WidgetFacts.

Section World.
Context {U : Type}.

Lemma exec_zoom_widget {Wd A} (m : M Wd A) (w : World Wd U) :
  exec (zoom widget_lens m) w = MkWorld (exec m (widget w)) (user w) (calls w).
Proof. unfold exec, zoom. cbn. destruct (m (widget w)); reflexivity. Qed.

(** User code never reaches into the widget. *)
Lemma callback_keeps {Wd X} (f : World Wd U -> X) name arg body :
  (forall w u c, f (MkWorld (widget w) u c) = f w) ->
  keeps f (callback name arg body).
Proof.
  intros H. unfold callback. frame.
  - apply H.
  - apply keeps_zoom. intros u w. apply H.
Qed.

Lemma zoom_widget_keeps {X A} (g : IconButton -> X) (m : M IconButton A) :
  keeps g m -> keeps (fun w : World IconButton U => g (widget w)) (zoom widget_lens m).
Proof.
  intros H. apply (keeps_zoom_inner _ _ g); [exact H |].
  intros a s E. exact E.
Qed.

Lemma click_command_keeps {X} (g : IconButton -> X) (k : kind U) :
  (forall l b, g (set_look l b) = g b) ->
  (forall v b, g (set_selected v b) = g b) ->
  keeps (fun w : World IconButton U => g (widget w)) (click_command k).
Proof.
  intros Hl Hs. destruct k as [command | toggle_command]; cbn [click_command].
  - apply callback_keeps. reflexivity.
  - unfold ToggleIconButton_click. frame.
    + apply zoom_widget_keeps. frame. apply Hs.
    + apply zoom_widget_keeps. apply config_colors_keeps, Hl.
    + apply callback_keeps. reflexivity.
Qed.

Lemma click_button_keeps {X} (g : IconButton -> X) (k : kind U) :
  (forall l b, g (set_look l b) = g b) ->
  (forall v b, g (set_selected v b) = g b) ->
  keeps (fun w : World IconButton U => g (widget w))
        (click_button widget_lens (click_command k)).
Proof.
  intros Hl Hs. unfold click_button. frame.
  - apply click_command_keeps; assumption.
  - apply zoom_widget_keeps. apply select_keeps; assumption.
Qed.

Lemma run_keeps_hovering (k : kind U) (o : operation) :
  not_hover o = true ->
  keeps (fun w : World IconButton U => hovering (widget w)) (run k o).
Proof.
  destruct o; cbn [not_hover run]; intros H; try discriminate H.
  - apply (click_button_keeps hovering); reflexivity.
  - apply (zoom_widget_keeps hovering), select_keeps; reflexivity.
  - apply (zoom_widget_keeps hovering), deselect_keeps; reflexivity.
  - apply (zoom_widget_keeps hovering), turn_on_keeps; reflexivity.
  - apply (zoom_widget_keeps hovering), turn_off_keeps; reflexivity.
  - apply (zoom_widget_keeps hovering), config_colors_keeps; reflexivity.
  - apply (zoom_widget_keeps hovering), set_color_keeps; reflexivity.
Qed.

(** While switched off, the hover handlers touch nothing but the
    hovering flag and the tool tip. *)
Lemma hover_enter_inactive {X} (g : IconButton -> X) b :
  (forall v b, g (set_hovering v b) = g b) ->
  (forall v b, g (set_tool_tip v b) = g b) ->
  active b = false -> g (exec hover_enter b) = g b.
Proof.
  intros Hh Ht Ha. unfold hover_enter. rewrite exec_bind. cbn [gets].
  rewrite Ha. as_keeps. frame; auto.
Qed.

Lemma hover_leave_inactive {X} (g : IconButton -> X) b :
  (forall v b, g (set_hovering v b) = g b) ->
  (forall v b, g (set_tool_tip v b) = g b) ->
  active b = false -> g (exec hover_leave b) = g b.
Proof.
  intros Hh Ht Ha. unfold hover_leave. rewrite exec_bind. cbn [gets].
  rewrite Ha. as_keeps. frame; auto.
Qed.

Lemma click_button_inactive {W} (self : Lens W IconButton) (cmd : M W unit) w :
  active (view self w) = false -> click_button self cmd w = (Ok tt, w).
Proof. intros Ha. unfold click_button, bind, gets. rewrite Ha. reflexivity. Qed.

End World.
End WidgetFacts.
Import WidgetFacts.

(** C5. The hovering flag is set to true by the pointer-enter handler
    and to false by the pointer-leave handler, from every button state,
    and every other button operation (click, select, deselect, turn_on,
    turn_off, config_colors, set_color, for plain and toggle buttons)
    leaves it as it was. *)
Theorem C5_hovering_follows_enter_and_leave :
  forall (U : Type) (k : kind U) (w : World IconButton U),
    hovering (widget (exec (deliver k Enter) w)) = true /\
    hovering (widget (exec (deliver k Leave) w)) = false /\
    forall o : operation,
      hovering (widget (exec (Widget.run k o) w)) =
      match o with
      | Op_hover_enter => true
      | Op_hover_leave => false
      | _ => hovering (widget w)
      end.
Proof.
  intros U k w.
  assert (He : hovering (widget (exec (Widget.run k Op_hover_enter) w)) = true).
  { cbn [Widget.run]. rewrite exec_zoom_widget. apply hover_enter_hovering. }
  assert (Hl : hovering (widget (exec (Widget.run k Op_hover_leave) w)) = false).
  { cbn [Widget.run]. rewrite exec_zoom_widget. apply hover_leave_hovering. }
  repeat split; try assumption.
  intros o.
  destruct (not_hover o) eqn:E.
  - rewrite (run_keeps_hovering k o E w). destruct o; try reflexivity; discriminate E.
  - destruct o; try discriminate E; assumption.
Qed.

(** C6. [select] sets the selected flag to true when the button is
    selectable (and leaves it alone otherwise), [deselect] sets it to
    false, and the pointer-enter and pointer-leave handlers do not
    change it. *)
Theorem C6_selected_persists_across_hover :
  forall (U : Type) (k : kind U) (w : World IconButton U),
    selected (widget (exec (Widget.run k Op_select) w)) =
      (if selectable (widget w) then true else selected (widget w)) /\
    selected (widget (exec (Widget.run k Op_deselect) w)) = false /\
    selected (widget (exec (deliver k Enter) w)) = selected (widget w) /\
    selected (widget (exec (deliver k Leave) w)) = selected (widget w).
Proof.
  intros U k w. cbn [deliver Widget.run]. rewrite !exec_zoom_widget. cbn [widget].
  repeat split.
  - apply select_selected.
  - apply deselect_selected.
  - apply (hover_enter_keeps selected); reflexivity.
  - apply (hover_leave_keeps selected); reflexivity.
Qed.

(* ===================================================================== *)
(** ** The colour tables keep their shape                                *)
(* ===================================================================== *)
Module WellFormed.

Lemma table2x2_intro {A} (a b c d : A) : table2x2 [[a; b]; [c; d]].
Proof. exists a, b, c, d. reflexivity. Qed.

#[local] Hint Resolve table2x2_intro : core.



Ltac exec_py :=
  repeat (unfold bind, gets, modify, getitem2, setitem2, getitem, ret, raise, lift, copy;
          cbn).




Lemma all_entries_2x2 {A} (P : A -> Prop) a b c d :
  all_entries P [[a; b]; [c; d]] <-> P a /\ P b /\ P c /\ P d.
Proof.
  unfold all_entries. split.
  - intros H. inversion H as [|? ? H1 H2]; subst. inversion H2 as [|? ? H3 _]; subst.
    inversion H1 as [|? ? ? H1']; subst. inversion H1'; subst.
    inversion H3 as [|? ? ? H3']; subst. inversion H3'; subst. auto.
  - intros (?&?&?&?). repeat constructor; assumption.
Qed.


(** Colours that made it through [hex_to_rgb] are not missing or empty. *)
Lemma hex_to_rgb_truthy c v : hex_to_rgb c = Ok v -> truthy c = true.
Proof. destruct c as [[|ch s]|]; cbn; intros H; try discriminate H; reflexivity. Qed.

Lemma image_replace_colors_truthy img v1 r1 v2 r2 img' :
  image_replace_colors img [(v1, r1); (v2, r2)] = Ok img' ->
  truthy r1 = true /\ truthy r2 = true.
Proof.
  cbn [image_replace_colors]. unfold and_then.
  destruct (hex_to_rgb r1) eqn:E1; [| discriminate].
  destruct (hex_to_rgb v1); [| discriminate].
  destruct (hex_to_rgb r2) eqn:E2; [| discriminate].
  intros _. eauto using hex_to_rgb_truthy.
Qed.

Lemma truthy_if_else x y : truthy y = true -> truthy (if_else x y) = true.
Proof. unfold if_else. destruct (truthy x) eqn:E; auto. Qed.

#[local] Arguments image_replace_colors : simpl never.






(** All that [config_colors] changes is the look of the widgets. *)
Lemma config_colors_returned s b' :
  config_colors s = (Ok tt, b') -> exists l, b' = set_look l s.
Proof.
  unfold config_colors. intros H. apply bind_returned in H as (p & s1 & H1 & H2).
  assert (K : keeps (fun b : IconButton => b) lookup_colors)
    by (unfold lookup_colors; frame).
  specialize (K s). unfold exec in K. rewrite H1 in K. cbn in K.
  apply modify_returned in H2. subst. eauto.
Qed.











(** When the constructor returns, the icon was read, every colour made
    it through [hex_to_rgb], and the tables, the icons, the flags and
    the options are as given. *)
Lemma IconButton_new_spec fs path kw b :
  IconButton_new fs path kw = Ok b ->
  fs path = true /\
  well_formed b /\ colours_defined b /\ icons_defined b /\
  active b = true /\ hovering b = false /\ selected b = kw_selected kw /\
  selectable b = kw_selectable kw /\
  select_on_click b = kw_select_on_click kw /\
  base_img b = Some (Image path []).
Proof.
  unfold IconButton_new.
  destruct (IconButton_init fs path (BaseButton_init kw)) as [[[]|e] b'] eqn:H;
    intros [= <-].
  unfold IconButton_init, BaseButton_init, imread in H.
  destruct (fs path) eqn:Hfs; returned.
  repeat match goal with
         | H : image_replace_colors _ _ = Ok _ |- _ =>
             apply image_replace_colors_truthy in H; destruct H
         end.
  match goal with
  | H : config_colors _ = (Ok _, _) |- _ => apply config_colors_returned in H as (l & ->)
  end.
  split; [reflexivity |].
  split; [split; cbn; eauto |].
  split; [split; cbn; rewrite ?all_entries_2x2;
          repeat split; repeat apply truthy_if_else; assumption |].
  split; [split; cbn; rewrite ?all_entries_2x2; repeat split; discriminate |].
  cbn. repeat split.
Qed.

Section World.
Context {U : Type}.









End World.
End WellFormed.

Import WellFormed.



(** C4, as the code has it.  While [active] is false a click does
    nothing at all: no callback runs and the world is unchanged.  The
    pointer-enter and pointer-leave handlers call no callback either and
    leave the selected flag, the active flag and the displayed colours
    unchanged, but they still record the pointer: hovering becomes true
    on enter and false on leave. *)
Theorem C4_inactive_button_only_tracks_pointer :
  forall (U : Type) (k : kind U) (w : World IconButton U),
    active (widget w) = false ->
    deliver k Click w = (Ok tt, w) /\
    (forall e : event,
       let w' := exec (deliver k e) w in
       calls w' = calls w /\ user w' = user w /\
       selected (widget w') = selected (widget w) /\
       active (widget w') = false /\
       look (widget w') = look (widget w)) /\
    hovering (widget (exec (deliver k Enter) w)) = true /\
    hovering (widget (exec (deliver k Leave) w)) = false.
Proof.
  intros U k w Ha.
  assert (Hc : deliver k Click w = (Ok tt, w)).
  { cbn [deliver Widget.run]. apply click_button_inactive. exact Ha. }
  split; [exact Hc |]. split; [| split].
  - pose (g := fun b : IconButton => (selected b, active b, look b)).
    intros [| |]; cbv zeta.
    + cbn [deliver Widget.run]. rewrite exec_zoom_widget. cbn [calls user widget].
      assert (E : g (exec hover_enter (widget w)) = g (widget w))
        by (apply hover_enter_inactive; auto).
      injection E as -> -> ->. auto.
    + cbn [deliver Widget.run]. rewrite exec_zoom_widget. cbn [calls user widget].
      assert (E : g (exec hover_leave (widget w)) = g (widget w))
        by (apply hover_leave_inactive; auto).
      injection E as -> -> ->. auto.
    + unfold exec. rewrite Hc. cbn. auto.
  - cbn [deliver Widget.run]. rewrite exec_zoom_widget. apply hover_enter_hovering.
  - cbn [deliver Widget.run]. rewrite exec_zoom_widget. apply hover_leave_hovering.
Qed.

(** The amended C4 at a button that was built with the default colours
    and then switched off. *)
Lemma C4_inactive_button_witness :
  active (widget Samples.switched_off) = false /\
  deliver Samples.do_nothing Click Samples.switched_off = (Ok tt, Samples.switched_off) /\
  hovering (widget (exec (deliver Samples.do_nothing Enter) Samples.switched_off)) = true.
Proof.
  assert (Ha : active (widget Samples.switched_off) = false) by reflexivity.
  split; [exact Ha |].
  destruct (C4_inactive_button_only_tracks_pointer unit Samples.do_nothing
              Samples.switched_off Ha) as (Hc & _ & He & _).
  split; [exact Hc | exact He].
Defined.

(** C4 as stated fails: on a switched-off button whose pointer is
    outside, the pointer-enter event changes the hovering flag. *)
Lemma C4_inactive_hover_changes_state :
  ~ (forall (w : World IconButton unit) (e : event),
       active (widget w) = false ->
       let w' := exec (deliver Samples.do_nothing e) w in
       calls w' = calls w /\
       selected (widget w') = selected (widget w) /\
       hovering (widget w') = hovering (widget w)).
Proof.
  intros H.
  destruct (H Samples.switched_off Enter eq_refl) as (_ & _ & Hh).
  vm_compute in Hh. discriminate Hh.
Qed.

(* ===================================================================== *)
(** ** DoubleIconButton and CheckButton                                  *)
(* ===================================================================== *)
Module DoubleFacts.
Import Double.

Lemma switch1_spec d :
  consistent d -> switch1 d = (Ok tt, MkDouble false (Button1 d) (Button2 d) [Child1]).
Proof.
  unfold consistent, get. destruct d as [st b1 b2 sh]; cbn. intros ->.
  destruct st; reflexivity.
Qed.

Lemma switch2_spec d :
  consistent d -> switch2 d = (Ok tt, MkDouble true (Button1 d) (Button2 d) [Child2]).
Proof.
  unfold consistent, get. destruct d as [st b1 b2 sh]; cbn. intros ->.
  destruct st; reflexivity.
Qed.

Lemma switch1_consistent : maintains consistent switch1.
Proof. intros d H. unfold exec. rewrite (switch1_spec d H). reflexivity. Qed.

Lemma switch2_consistent : maintains consistent switch2.
Proof. intros d H. unfold exec. rewrite (switch2_spec d H). reflexivity. Qed.

Lemma consistent_iff d :
  consistent d ->
  (get d = false <-> shown d = [Child1]) /\ (get d = true <-> shown d = [Child2]).
Proof.
  unfold consistent. intros ->. destruct (get d); repeat split; congruence.
Qed.

Lemma child_kwargs_returned popup_label kwargs kw :
  child_kwargs popup_label kwargs = Ok kw ->
  given_selectable kwargs = None /\ given_popup_label kwargs = None /\
  kw_selectable kw = false /\ kw_popup_label kw = popup_label.
Proof.
  unfold child_kwargs.
  destruct (given_selectable kwargs), (given_popup_label kwargs); intros [= <-]; auto.
Qed.

(** When the constructor returns, neither [selectable] nor
    [popup_label] was among the keywords, both icons were read, Button1
    is the one on display and the status is false. *)
Lemma DoubleIconButton_new_spec fs icon1 icon2 popup_label1 popup_label2 kwargs d :
  DoubleIconButton_new fs icon1 icon2 popup_label1 popup_label2 kwargs = Ok d ->
  consistent d /\ get d = false /\ shown d = [Child1] /\
  active (Button1 d) = true /\ selectable (Button1 d) = false /\
  base_img (Button1 d) = Some (Image icon1 []) /\
  base_img (Button2 d) = Some (Image icon2 []) /\
  given_selectable kwargs = None /\ given_popup_label kwargs = None.
Proof.
  unfold DoubleIconButton_new. intros H.
  apply and_then_returned in H as (kw1 & Hk1 & H).
  apply and_then_returned in H as (b1 & Hb1 & H).
  apply and_then_returned in H as (kw2 & Hk2 & H).
  apply and_then_returned in H as (b2 & Hb2 & H).
  injection H as <-.
  apply child_kwargs_returned in Hk1 as (Hs & Hp & Hs1 & _).
  apply IconButton_new_spec in Hb1 as (_ & _ & _ & _ & Ha & _ & _ & Hsel & _ & Hi1).
  apply IconButton_new_spec in Hb2 as (_ & _ & _ & _ & _ & _ & _ & _ & _ & Hi2).
  cbn. rewrite Hsel. repeat split; assumption.
Qed.

Section World.
Context {U : Type}.
Variables command1 command2 : user_command U.

Lemma invoke_consistent (c : user_command U) :
  maintains (@consistent_world U) (invoke c).
Proof.
  apply (maintains_keeps (fun w : World DoubleIconButton U => widget w) consistent).
  apply callback_keeps. reflexivity.
Qed.

Lemma zoom_widget_consistent {A} (m : M DoubleIconButton A) :
  maintains consistent m -> maintains (@consistent_world U) (zoom widget_lens m).
Proof. intros H. apply (maintains_zoom widget_lens consistent); [reflexivity | exact H]. Qed.

Lemma click1_consistent : maintains (@consistent_world U) (click1 command1).
Proof.
  unfold click1. invariant.
  - apply zoom_widget_consistent, switch2_consistent.
  - apply invoke_consistent.
Qed.

Lemma click2_consistent : maintains (@consistent_world U) (click2 command2).
Proof.
  unfold click2. invariant.
  - apply zoom_widget_consistent, switch1_consistent.
  - apply invoke_consistent.
Qed.

(** A method of one of the two buttons leaves the flag and the packer alone. *)
Lemma zoom_Button1_consistent {A} (m : M IconButton A) :
  maintains (@consistent_world U) (zoom Button1_lens m).
Proof.
  apply (maintains_keeps
           (fun w : World DoubleIconButton U => (double_status (widget w), shown (widget w)))
           (fun p => snd p = [if fst p then Child2 else Child1])).
  apply keeps_zoom. reflexivity.
Qed.

Lemma zoom_Button2_consistent {A} (m : M IconButton A) :
  maintains (@consistent_world U) (zoom Button2_lens m).
Proof.
  apply (maintains_keeps
           (fun w : World DoubleIconButton U => (double_status (widget w), shown (widget w)))
           (fun p => snd p = [if fst p then Child2 else Child1])).
  apply keeps_zoom. reflexivity.
Qed.

Lemma run_consistent (o : operation) :
  maintains (@consistent_world U) (run command1 command2 o).
Proof.
  destruct o as [| | | | o | o]; cbn [run].
  - apply zoom_widget_consistent, switch1_consistent.
  - apply zoom_widget_consistent, switch2_consistent.
  - apply click1_consistent.
  - apply click2_consistent.
  - destruct o; cbn [run_child]; try apply zoom_Button1_consistent.
    unfold click_button. invariant;
      auto using click1_consistent, zoom_Button1_consistent.
  - destruct o; cbn [run_child]; try apply zoom_Button2_consistent.
    unfold click_button. invariant;
      auto using click2_consistent, zoom_Button2_consistent.
Qed.

Lemma run_all_consistent (os : list operation) :
  maintains (@consistent_world U) (run_all command1 command2 os).
Proof.
  induction os as [|o os IH]; cbn [run_all].
  - apply maintains_ret.
  - apply maintains_bind; [apply run_consistent | intros _; exact IH].
Qed.

(** [click1]: the switch has happened when the command is called, and
    stays whatever the command does. *)
Lemma click1_spec w :
  consistent (widget w) ->
  click1 command1 w =
    invoke command1 (MkWorld (MkDouble true (Button1 (widget w)) (Button2 (widget w)) [Child2])
                       (user w) (calls w)).
Proof.
  intros H. unfold click1, bind, zoom. cbn [view update widget_lens].
  rewrite (switch2_spec _ H). reflexivity.
Qed.

Lemma click2_spec w :
  consistent (widget w) ->
  click2 command2 w =
    invoke command2 (MkWorld (MkDouble false (Button1 (widget w)) (Button2 (widget w)) [Child1])
                       (user w) (calls w)).
Proof.
  intros H. unfold click2, bind, zoom. cbn [view update widget_lens].
  rewrite (switch1_spec _ H). reflexivity.
Qed.

Lemma invoke_spec {Wd} (c : user_command U) (w : World Wd U) :
  invoke c w =
    (fst (cmd_body c (user w)),
     MkWorld (widget w) (snd (cmd_body c (user w)))
       (calls w ++ [Call (cmd_name c) (cmd_arg c)])).
Proof.
  unfold invoke, callback, bind, modify, zoom. cbn.
  destruct (cmd_body c (user w)) as [[[]|e] u']; reflexivity.
Qed.

End World.
End DoubleFacts.

Import DoubleFacts.

(** C9. A [DoubleIconButton] that the constructor returned starts with
    status false and Button1 shown, and every operation on it (switch1, switch2, click1, click2, and any
    event or method of its two buttons, in any sequence) keeps the
    status flag in step with the button on display: [get()] is false
    exactly when Button1 is the one shown and true exactly when Button2
    is.  switch1 and click2 end with status false and Button1 shown,
    switch2 and click1 with status true and Button2 shown; click1 and
    click2 call their command once, in the world where the switch has
    already been made. *)
Theorem C9_status_matches_displayed_button :
  forall (U : Type) (command1 command2 : user_command U)
         (w : World Double.DoubleIconButton U),
    Double.consistent (widget w) ->
    (forall os : list Double.operation,
       let d := widget (exec (Double.run_all command1 command2 os) w) in
       (Double.get d = false <-> Double.shown d = [Double.Child1]) /\
       (Double.get d = true <-> Double.shown d = [Double.Child2])) /\
    (forall o : Double.operation,
       let w' := exec (Double.run command1 command2 o) w in
       match o with
       | Double.Op_switch1 =>
           Double.get (widget w') = false /\ Double.shown (widget w') = [Double.Child1] /\
           calls w' = calls w
       | Double.Op_click2 =>
           Double.get (widget w') = false /\ Double.shown (widget w') = [Double.Child1] /\
           calls w' = calls w ++ [Call (cmd_name command2) (cmd_arg command2)]
       | Double.Op_switch2 =>
           Double.get (widget w') = true /\ Double.shown (widget w') = [Double.Child2] /\
           calls w' = calls w
       | Double.Op_click1 =>
           Double.get (widget w') = true /\ Double.shown (widget w') = [Double.Child2] /\
           calls w' = calls w ++ [Call (cmd_name command1) (cmd_arg command1)]
       | _ => Double.consistent (widget w')
       end) /\
    Double.click1 command1 w =
      invoke command1 (snd (zoom widget_lens Double.switch2 w)) /\
    Double.click2 command2 w =
      invoke command2 (snd (zoom widget_lens Double.switch1 w)) /\
    (forall fs icon1 icon2 popup_label1 popup_label2 kwargs d,
       Double.DoubleIconButton_new fs icon1 icon2 popup_label1 popup_label2 kwargs = Ok d ->
       Double.consistent d /\ Double.get d = false /\
       Double.shown d = [Double.Child1]).
Proof.
  intros U c1 c2 w H.
  split; [| split; [| split; [| split]]].
  - intros os. apply consistent_iff.
    apply (run_all_consistent c1 c2 os w H).
  - intros o. destruct o as [| | | | o | o]; cbv zeta.
    + cbn [Double.run]. rewrite exec_zoom_widget. unfold exec.
      rewrite (switch1_spec _ H). auto.
    + cbn [Double.run]. rewrite exec_zoom_widget. unfold exec.
      rewrite (switch2_spec _ H). auto.
    + cbn [Double.run]. unfold exec. rewrite (click1_spec c1 w H), invoke_spec. auto.
    + cbn [Double.run]. unfold exec. rewrite (click2_spec c2 w H), invoke_spec. auto.
    + apply (run_consistent c1 c2 (Double.On_Button1 o) w H).
    + apply (run_consistent c1 c2 (Double.On_Button2 o) w H).
  - rewrite (click1_spec c1 w H). unfold zoom. cbn [view update widget_lens].
    rewrite (switch2_spec _ H). reflexivity.
  - rewrite (click2_spec c2 w H). unfold zoom. cbn [view update widget_lens].
    rewrite (switch1_spec _ H). reflexivity.
  - intros fs icon1 icon2 popup_label1 popup_label2 kwargs d E.
    destruct (DoubleIconButton_new_spec _ _ _ _ _ _ _ E) as (Hc & Hg & Hs & _).
    auto.
Qed.

(** C9 at the play/pause button of [PlayerButtons], as its constructor
    returns it: pressing play. *)
Lemma C9_status_matches_displayed_button_witness :
  Double.DoubleIconButton_new Samples.fs "play.png" "pause.png" None None no_keywords
    = Ok (widget Samples.play_button) /\
  Double.consistent (widget Samples.play_button) /\
  Double.get (widget (exec (Double.run Samples.play_command Samples.stop_command
                              Double.Op_click1) Samples.play_button)) = true.
Proof.
  assert (E : Double.DoubleIconButton_new Samples.fs "play.png" "pause.png" None None
                no_keywords = Ok (widget Samples.play_button))
    by (vm_compute; reflexivity).
  assert (H : Double.consistent (widget Samples.play_button)) by (vm_compute; reflexivity).
  split; [exact E |]. split; [exact H |].
  destruct (C9_status_matches_displayed_button unit Samples.play_command
              Samples.stop_command Samples.play_button H) as (_ & Hop & _).
  exact (proj1 (Hop Double.Op_click1)).
Defined.

(** C10. Whenever the [DoubleIconButton] part of a [CheckButton] gets
    built, constructing with [active=True] clicks the unchecked button
    during construction: the user's command is called exactly once,
    with argument [True], and the checked icon (checkbox.png, Button2)
    is the one left on display, with status true; with [active=False]
    no callback is called and the unchecked box (Button1) is displayed.
    When that part raises instead (a colour that is [None] or not a hex
    code, an icon that cannot be read, [selectable] or [popup_label]
    among the keywords), the constructor raises the same exception and
    no callback is called, whatever [active] is. *)
Theorem C10_check_button_constructed_active :
  forall (U : Type) (fs : disk) (here : string) (command : bool -> M U unit)
         (active_popup_label inactive_popup_label : pystr) (kwargs : Keywords)
         (w : World unit U),
    (forall d0 : Double.DoubleIconButton,
       Double.DoubleIconButton_new fs (Double.box_png here) (Double.checkbox_png here)
         inactive_popup_label active_popup_label kwargs = Ok d0 ->
       (let r := Double.CheckButton_new fs here command active_popup_label
                   inactive_popup_label true kwargs w in
        calls (snd r) = calls w ++ [Call "command" (Some true)] /\
        fst r = fst (command true (user w)) /\
        user (snd r) = snd (command true (user w)) /\
        exists d, widget (snd r) = Some d /\
          Double.get d = true /\ Double.shown d = [Double.Child2] /\
          option_map icon_path (base_img (Double.Button2 d)) =
            Some (Double.checkbox_png here)) /\
       (let r := Double.CheckButton_new fs here command active_popup_label
                   inactive_popup_label false kwargs w in
        fst r = Ok tt /\ calls (snd r) = calls w /\ user (snd r) = user w /\
        exists d, widget (snd r) = Some d /\
          Double.get d = false /\ Double.shown d = [Double.Child1] /\
          option_map icon_path (base_img (Double.Button1 d)) =
            Some (Double.box_png here))) /\
    (forall (e : exn) (active : bool),
       Double.DoubleIconButton_new fs (Double.box_png here) (Double.checkbox_png here)
         inactive_popup_label active_popup_label kwargs = Raise e ->
       Double.CheckButton_new fs here command active_popup_label inactive_popup_label
         active kwargs w = (Raise e, MkWorld None (user w) (calls w))).
Proof.
  intros U fs here command apl ipl kwargs w. split.
  - intros d E.
    destruct (DoubleIconButton_new_spec _ _ _ _ _ _ _ E)
      as (Hc & Hg & Hs & Ha & Hsel & Hi1 & Hi2 & _).
    assert (Eon :
      Double.CheckButton_new fs here command apl ipl true kwargs w =
        (fst (command true (user w)),
         MkWorld (Some (Double.MkDouble true (Double.Button1 d) (Double.Button2 d)
                          [Double.Child2]))
           (snd (command true (user w)))
           (calls w ++ [Call "command" (Some true)]))).
    { unfold Double.CheckButton_new. rewrite E.
      unfold click_button, bind at 1, gets at 1. cbn [view Double.Button1_lens widget].
      rewrite Ha.
      assert (Hcw : Double.consistent (widget (MkWorld d (user w) (calls w)))) by exact Hc.
      unfold bind at 1.
      rewrite (click1_spec (Double.CheckButton_command command true) _ Hcw), invoke_spec.
      cbn [Double.CheckButton_command cmd_body cmd_name cmd_arg user calls widget fst snd].
      destruct (command true (user w)) as [[[]|e] u']; cbn [fst snd]; [| reflexivity].
      unfold bind at 1, gets at 1. cbn [widget Double.Button1].
      destruct (select_on_click (Double.Button1 d)); [| reflexivity].
      unfold zoom, select, bind, gets.
      cbn [view update Double.Button1_lens widget Double.Button1].
      rewrite Hsel. cbn. reflexivity. }
    assert (Eoff :
      Double.CheckButton_new fs here command apl ipl false kwargs w =
        (Ok tt, MkWorld (Some d) (user w) (calls w))).
    { unfold Double.CheckButton_new. rewrite E. reflexivity. }
    split; cbv zeta.
    + rewrite Eon. cbn [fst snd calls user widget].
      repeat split. eexists. split; [reflexivity |]. cbn. rewrite Hi2. auto.
    + rewrite Eoff. cbn [fst snd calls user widget].
      repeat split. exists d. rewrite Hi1. auto.
  - intros e active E. unfold Double.CheckButton_new. rewrite E. reflexivity.
Qed.

(** C10 for [CheckButton(master, command, active=True)] and
    [CheckButton(master, command, active=False)] with the icons of the
    package in place. *)
Lemma C10_check_button_constructed_active_witness :
  (exists d0,
     Double.DoubleIconButton_new Samples.fs (Double.box_png Samples.here)
       (Double.checkbox_png Samples.here) None None no_keywords = Ok d0) /\
  calls (snd (Double.CheckButton_new Samples.fs Samples.here
                (fun _ : bool => ret tt) None None true no_keywords
                (MkWorld tt tt []))) = [Call "command" (Some true)] /\
  calls (snd (Double.CheckButton_new Samples.fs Samples.here
                (fun _ : bool => ret tt) None None false no_keywords
                (MkWorld tt tt []))) = [].
Proof.
  assert (E : exists d0,
     Double.DoubleIconButton_new Samples.fs (Double.box_png Samples.here)
       (Double.checkbox_png Samples.here) None None no_keywords = Ok d0)
    by (vm_compute; eexists; reflexivity).
  split; [exact E |].
  destruct E as (d0 & E).
  destruct (C10_check_button_constructed_active unit Samples.fs Samples.here
              (fun _ : bool => ret tt) None None no_keywords (MkWorld tt tt []))
    as (Hok & _).
  destruct (Hok d0 E) as ((Hon & _) & (_ & Hoff & _)).
  split; [exact Hon | exact Hoff].
Defined.

(* ===================================================================== *)
(** ** PdfDisplay: the render loop                                       *)
(* ===================================================================== *)
Module PdfFacts.
Import Pdf.

Section Fitz.
Context {page ppm : Type}.
Variable fitz_open : string -> option (list page).
Variable getImageData : page -> Z -> ppm.

#[local] Abbreviation Runtime := (Runtime page ppm).
#[local] Abbreviation render_pdf := (render_pdf fitz_open getImageData).
#[local] Abbreviation show_pdf := (show_pdf fitz_open getImageData).
#[local] Abbreviation zoom_in := (zoom_in fitz_open getImageData).
#[local] Abbreviation zoom_out := (zoom_out fitz_open getImageData).

Lemma rendered_by_refl (rt : Runtime) :
  img_object_list (display rt) = [] -> rendered_by rt rt.
Proof.
  intros E. unfold rendered_by. rewrite E.
  repeat split; auto. exists []. rewrite app_nil_r. auto.
Qed.

Lemma rendered_by_view (rt0 rt rt' : Runtime) :
  render_view rt' = render_view rt -> rendered_by rt0 rt -> rendered_by rt0 rt'.
Proof.
  unfold render_view, rendered_by. intros E.
  injection E as -> -> -> -> -> -> -> ->. auto.
Qed.

(** The widget-side steps of a render do not touch what the loop wrote. *)
Lemma position_buttons_keeps {X} (g : PdfDisplay ppm -> X) :
  (forall v d, g (set_buttons_placed v d) = g d) -> keeps g position_buttons.
Proof. intros H. unfold position_buttons. frame. apply H. Qed.

Lemma text_append_keeps {X} (g : PdfDisplay ppm -> X) it :
  (forall v d, g (set_pdf_frame v d) = g d) -> keeps g (text_append it).
Proof. intros H. unfold text_append. frame. apply H. Qed.

Lemma text_disable_keeps {X} (g : PdfDisplay ppm -> X) :
  (forall v d, g (set_pdf_frame v d) = g d) -> keeps g text_disable.
Proof. intros H. unfold text_disable. frame. apply H. Qed.

Lemma remove_all_keeps {X} (g : PdfDisplay ppm -> X) :
  (forall v d, g (set_active v d) = g d) ->
  (forall v d, g (set_label_packed v d) = g d) ->
  (forall v d, g (set_buttons_placed v d) = g d) ->
  (forall v d, g (set_pdf_frame v d) = g d) ->
  keeps g remove_all.
Proof. intros. unfold remove_all. frame; auto. Qed.

Lemma zoom_display_keeps {X Y A} (f : Runtime -> X) (g : PdfDisplay ppm -> Y)
    (m : M (PdfDisplay ppm) A) :
  keeps g m ->
  (forall d rt, g d = g (display rt) -> f (update display_lens d rt) = f rt) ->
  keeps f (zoom display_lens m).
Proof. intros Hm H. apply (keeps_zoom_inner f display_lens g); assumption. Qed.

(** One turn of the page loop. *)
Lemma render_page_rendered_by (rt0 : Runtime) pg :
  hoare (rendered_by rt0)
    (d <- gets display ;;
     dpi <- lift (int (72 * zoom_fact d * scale_fact d)) ;;
     record_work (Render pg dpi) ;;
     img <- new_PhotoImage (getImageData pg dpi) ;;
     zoom display_lens
       (modify (fun d => set_img_object_list (img_object_list d ++ [img]) d)))
    (fun _ => rendered_by rt0) (rendered_by rt0).
Proof.
  apply (hoare_bind _ _ _ (fun d rt => rendered_by rt0 rt /\ d = display rt)).
  { apply hoare_gets. auto. }
  intros d.
  apply (hoare_bind _ _ _
           (fun dpi rt => rendered_by rt0 rt /\
              int (72 * zoom_fact (display rt0) * scale_fact (display rt0)) = Ok dpi)).
  { apply hoare_lift. intros rt [H ->].
    pose proof H as (_ & _ & Hz & Hs & _). rewrite Hz, Hs.
    destruct (int _) eqn:E; auto. }
  intros dpi.
  apply (hoare_bind _ _ _
           (fun _ rt => rendered_by rt0 rt /\
              int (72 * zoom_fact (display rt0) * scale_fact (display rt0)) = Ok dpi)).
  { apply hoare_modify. intros rt [(Ht & Hth & Hz & Hs & Hf & Hn & Hl & done & Hd & Hw) E].
    split; [| exact E]. unfold rendered_by. cbn.
    repeat split; auto.
    exists (done ++ [(current_thread rt, Render pg dpi)]).
    rewrite Hd, app_assoc. split; [reflexivity |].
    apply Forall_app. split; [exact Hw |].
    constructor; [| constructor]. cbn. auto. }
  intros _.
  apply (hoare_bind _ _ _
           (fun img rt => rendered_by rt0 rt /\ image_name img = images_created rt /\
                          (images_created rt0 < images_created rt)%nat)).
  { unfold new_PhotoImage.
    apply (hoare_bind _ _ _ (fun r rt => rendered_by rt0 rt /\ r = rt)).
    { apply hoare_gets. intros rt [H _]. auto. }
    intros r.
    apply (hoare_bind _ _ _
             (fun _ rt => rendered_by rt0 rt /\ images_created rt = S (images_created r) /\
                          (images_created rt0 <= images_created r)%nat)).
    { apply hoare_modify.
      intros rt [(Ht & Hth & Hz & Hs & Hf & Hn & Hl & Hw) ->].
      split; [| split; [reflexivity | exact Hn]]. unfold rendered_by. cbn.
      repeat split; auto.
      eapply Forall_impl; [exact Hl |]. cbn. intros x Hx. lia. }
    intros _. apply hoare_ret. intros rt (H & E & Hle).
    split; [exact H | cbn; split; lia]. }
  intros img rt (H & Hi & Hlt).
  destruct H as (Ht & Hth & Hz & Hs & Hf & Hn & Hl & Hw).
  unfold zoom, modify. cbn. unfold rendered_by. cbn.
  repeat split; auto.
  apply Forall_app. split; [exact Hl |].
  constructor; [| constructor]. lia.
Qed.

(** Whatever happens, a render leaves only images it created itself, and
    all the work it records was done by the thread that called it. *)
Lemma render_pdf_rendered_by (rt : Runtime) :
  rendered_by (clear_images rt) (exec render_pdf rt).
Proof.
  unfold render_pdf. rewrite exec_bind. unfold zoom at 1, modify at 1.
  cbn [view update display_lens fst snd].
  lazymatch goal with
  | |- rendered_by _ (exec _ ?s) => change s with (clear_images rt)
  end.
  set (rt0 := clear_images rt).
  assert (H0 : rendered_by rt0 rt0) by (apply rendered_by_refl; reflexivity).
  clearbody rt0.
  match goal with |- rendered_by rt0 (exec ?m rt0) =>
    enough (Hm : maintains (rendered_by rt0) m) by (apply Hm; exact H0) end.
  apply maintains_bind; [apply maintains_gets |]. intros d.
  apply maintains_bind.
  { destruct (filename d); [apply maintains_ret | intros s Hs; exact Hs]. }
  intros fname. apply maintains_bind.
  { destruct (fitz_open fname); [apply maintains_ret | intros s Hs; exact Hs]. }
  intros pages. apply maintains_bind.
  { apply maintains_for_each. intros pg. apply maintains_hoare.
    apply render_page_rendered_by. }
  intros _.
  match goal with |- maintains _ ?m =>
    enough (Hk : keeps render_view m)
      by (intros s Hs; apply (rendered_by_view rt0 s); [apply Hk | exact Hs]) end.
  frame.
  - apply (zoom_display_keeps _
             (fun d => (zoom_fact d, scale_fact d, filename d, img_object_list d))).
    + frame; try reflexivity.
      * apply position_buttons_keeps. reflexivity.
      * apply text_append_keeps. reflexivity.
      * apply text_append_keeps. reflexivity.
      * apply text_disable_keeps. reflexivity.
    + intros d' s E. unfold render_view. cbn. injection E as -> -> -> ->. reflexivity.
Qed.

(** The page loop when every conversion succeeds. *)
Lemma page_loop (pages : list page) : forall (rt : Runtime) (dpi : Z),
  int (72 * zoom_fact (display rt) * scale_fact (display rt)) = Ok dpi ->
  for_each pages (fun pg =>
    d <- gets display ;;
    dpi <- lift (int (72 * zoom_fact d * scale_fact d)) ;;
    record_work (Render pg dpi) ;;
    img <- new_PhotoImage (getImageData pg dpi) ;;
    zoom display_lens
      (modify (fun d => set_img_object_list (img_object_list d ++ [img]) d))) rt =
  (Ok tt,
   MkRuntime
     (set_img_object_list
        (img_object_list (display rt) ++
           page_images getImageData (images_created rt) dpi pages) (display rt))
     (images_created rt + length pages) (current_thread rt) (threads rt)
     (trace rt ++ map (fun pg => (current_thread rt, Render pg dpi)) pages)).
Proof.
  induction pages as [|pg pages IH]; intros rt dpi Hdpi.
  - destruct rt as [d n t ths tr]. destruct d. cbn.
    rewrite !app_nil_r, Nat.add_0_r. reflexivity.
  - cbn [for_each]. unfold bind at 1. unfold bind at 1, gets at 1.
    unfold bind at 1, lift at 1. rewrite Hdpi.
    unfold bind at 1, record_work at 1, modify at 1.
    unfold bind at 1, new_PhotoImage at 1, bind at 1, gets at 1, bind at 1, modify at 1, ret at 1.
    unfold zoom at 1, modify at 1. cbn [view update display_lens display images_created
      current_thread threads trace fst snd].
    rewrite (IH _ dpi) by exact Hdpi.
    destruct rt as [d n t ths tr]. destruct d. cbn.
    rewrite <- !app_assoc. cbn. rewrite Nat.add_succ_r. reflexivity.
Qed.

(** The loop that fills the text box. *)
Lemma text_loop_rest (imgs : list (PhotoImage ppm)) :
  forall (k : nat) (d : PdfDisplay ppm) (fr : PdfFrame ppm),
  pdf_frame d = Some fr ->
  for_each (combine (seq (S k) (length imgs)) imgs) (fun i_img =>
    (if (0 <? fst i_img)%nat then text_append Newlines else ret tt) ;;
    text_append (Embedded (snd i_img))) d =
  (Ok tt,
   set_pdf_frame
     (Some (MkFrame (frame_width fr) (frame_height fr)
              (pdf_text fr ++ flat_map (fun i => [Newlines; Embedded i]) imgs)
              (text_disabled fr) (destroyed fr))) d).
Proof.
  induction imgs as [|img imgs IH]; intros k d fr Hfr.
  - destruct d, fr. cbn in *. subst. rewrite app_nil_r. reflexivity.
  - cbn [length seq combine for_each fst snd Nat.ltb Nat.leb].
    unfold bind at 1. unfold bind at 1. unfold text_append at 1, bind at 1, gets at 1.
    rewrite Hfr. unfold modify at 1.
    unfold text_append at 1, bind at 1, gets at 1. cbn [pdf_frame set_pdf_frame].
    unfold modify at 1.
    erewrite IH by reflexivity.
    destruct d, fr. cbn. rewrite <- !app_assoc. reflexivity.
Qed.

Lemma text_loop (imgs : list (PhotoImage ppm)) (d : PdfDisplay ppm) (fr : PdfFrame ppm) :
  pdf_frame d = Some fr ->
  for_each (enumerate imgs) (fun i_img =>
    (if (0 <? fst i_img)%nat then text_append Newlines else ret tt) ;;
    text_append (Embedded (snd i_img))) d =
  (Ok tt,
   set_pdf_frame
     (Some (MkFrame (frame_width fr) (frame_height fr)
              (pdf_text fr ++ page_text imgs)
              (text_disabled fr) (destroyed fr))) d).
Proof.
  intros Hfr. unfold enumerate. destruct imgs as [|img imgs].
  - destruct d, fr. cbn in *. subst. rewrite app_nil_r. reflexivity.
  - cbn [length seq combine for_each fst snd Nat.ltb Nat.leb page_text].
    unfold bind at 1. unfold bind at 1, ret at 1.
    unfold text_append at 1, bind at 1, gets at 1. rewrite Hfr. unfold modify at 1.
    erewrite text_loop_rest by reflexivity.
    destruct d, fr. cbn. rewrite <- !app_assoc. reflexivity.
Qed.

(** A render of a document that opens, at a finite scale. *)
Lemma render_pdf_loaded (rt : Runtime) fname pages dpi w h :
  filename (display rt) = Some fname ->
  fitz_open fname = Some pages ->
  int (72 * zoom_fact (display rt) * scale_fact (display rt)) = Ok dpi ->
  int (float_of_int (width (display rt)) * scale_fact (display rt)) = Ok w ->
  int (float_of_int (height (display rt)) * scale_fact (display rt)) = Ok h ->
  active (display rt) = true ->
  exists rt',
    render_pdf rt = (Ok PyNone, rt') /\
    img_object_list (display rt') =
      page_images getImageData (images_created rt) dpi pages /\
    pdf_frame (display rt') =
      Some (MkFrame w h
              (page_text (page_images getImageData (images_created rt) dpi pages))
              true false) /\
    trace rt' = trace rt ++ map (fun pg => (current_thread rt, Render pg dpi)) pages /\
    images_created rt' = (images_created rt + length pages)%nat /\
    active (display rt') = true /\
    buttons_placed (display rt') = true /\
    label_packed (display rt') = label_packed (display rt) /\
    threads rt' = threads rt /\
    current_thread rt' = current_thread rt.
Proof.
  intros Hf Ho Hdpi Hw Hh Ha.
  unfold render_pdf.
  unfold bind at 1, zoom at 1, modify at 1. cbn [view update display_lens fst snd].
  unfold bind at 1, gets at 1. cbn [display filename set_img_object_list].
  rewrite Hf. unfold bind at 1, ret at 1. rewrite Ho. unfold bind at 1, ret at 1.
  unfold bind at 1. rewrite (page_loop pages _ dpi) by exact Hdpi.
  unfold bind at 1, gets at 1.
  cbn [display width height scale_fact set_img_object_list img_object_list].
  unfold bind at 1, lift at 1. rewrite Hw.
  unfold bind at 1, lift at 1. rewrite Hh.
  unfold bind at 1, zoom at 1. cbn [view update display_lens].
  unfold bind at 1, modify at 1. unfold bind at 1.
  unfold position_buttons at 1, bind at 1, gets at 1.
  cbn [active set_pdf_frame set_img_object_list pdf_frame display images_created
       current_thread threads trace]. rewrite Ha.
  unfold modify at 1. unfold bind at 1, gets at 1. unfold bind at 1.
  cbn [img_object_list set_buttons_placed app].
  erewrite text_loop by reflexivity.
  unfold text_disable, bind, gets, modify, ret. cbn.
  eexists. split; [reflexivity |]. cbn. repeat split; try reflexivity. exact Ha.
Qed.

(** [render_pdf] has no [return]: a call that returns gives [None]. *)
Lemma render_pdf_returns_None (rt rt' : Runtime) v :
  render_pdf rt = (Ok v, rt') -> v = PyNone.
Proof.
  intros E.
  enough (H : hoare (fun _ => True) render_pdf (fun v _ => v = PyNone) (fun _ => True)).
  { specialize (H rt I). rewrite E in H. exact H. }
  unfold render_pdf.
  repeat lazymatch goal with
         | |- hoare _ (bind ?m _) _ _ =>
             apply (hoare_bind _ _ _ (fun _ _ => True));
             [intros s _; destruct (m s) as [[?|?] ?]; exact I | intros ?]
         end.
  apply hoare_ret. reflexivity.
Qed.

(** The block that opens [show_pdf], [zoom_in] and [zoom_out]: an update
    [g] of the display, [remove_all], and [active = True]. *)
Lemma prepare_spec (g : PdfDisplay ppm -> PdfDisplay ppm) (rt : Runtime) :
  exists d1,
    zoom display_lens (modify g ;; remove_all ;; modify (set_active true)) rt =
      (Ok tt, update display_lens d1 rt) /\
    scale_fact d1 = scale_fact (g (display rt)) /\
    zoom_fact d1 = zoom_fact (g (display rt)) /\
    filename d1 = filename (g (display rt)) /\
    width d1 = width (g (display rt)) /\
    height d1 = height (g (display rt)) /\
    img_object_list d1 = img_object_list (g (display rt)) /\
    active d1 = true /\
    label_packed d1 = false.
Proof.
  unfold zoom, bind, modify, remove_all, gets. cbn.
  destruct (pdf_frame (g (display rt))); cbn; eexists; (split; [reflexivity |]);
    cbn; repeat split.
Qed.

(** What [show_pdf], [zoom_in] and [zoom_out] do on every path. *)
Lemma rerender_spec (g : PdfDisplay ppm -> PdfDisplay ppm) (rt : Runtime) :
  (forall d, zoom_fact (g d) = zoom_fact d) ->
  let rt' :=
    exec (zoom display_lens (modify g ;; remove_all ;; modify (set_active true)) ;;
          target <- render_pdf ;;
          Thread_start fitz_open getImageData target) rt in
  scale_fact (display rt') = scale_fact (g (display rt)) /\
  filename (display rt') = filename (g (display rt)) /\
  current_thread rt' = current_thread rt /\
  only_new_images rt rt' /\
  drawn_at (scale_fact (g (display rt))) rt rt' /\
  started_without_target rt rt'.
Proof.
  intros Hg rt'. subst rt'. rewrite exec_bind.
  destruct (prepare_spec g rt) as (d1 & -> & Hs & Hz & Hf & _ & _ & _ & _ & _).
  rewrite exec_bind.
  pose proof (render_pdf_rendered_by (update display_lens d1 rt)) as R.
  unfold exec in R.
  destruct (render_pdf (update display_lens d1 rt)) as [[v|e] rt2] eqn:E;
    cbn [snd] in R;
    destruct R as (Rt & Rth & Rz & Rs & Rf & Rn & Rl & done & Rd & Rw);
    cbn in Rt, Rth, Rz, Rs, Rf, Rn, Rl, Rd, Rw.
  - rewrite (render_pdf_returns_None _ _ _ E).
    unfold exec, Thread_start, bind, gets, modify, ret, only_new_images, drawn_at,
      started_without_target. cbn.
    rewrite Rs, Rf, Hs, Hf, Rt. repeat split; auto.
    + exists done. split; [exact Rd |]. rewrite <- Hs, <- (Hg (display rt)), <- Hz. exact Rw.
    + exists [PyNone]. rewrite Rth. split; [reflexivity | repeat constructor].
  - unfold only_new_images, drawn_at, started_without_target.
    rewrite Rs, Rf, Hs, Hf, Rt. repeat split; auto.
    + exists done. split; [exact Rd |]. rewrite <- Hs, <- (Hg (display rt)), <- Hz. exact Rw.
    + exists []. rewrite Rth, app_nil_r. split; [reflexivity | constructor].
Qed.

(** ... and when the document opens and the scaled sizes are finite. *)
Lemma rerender_loaded (g : PdfDisplay ppm -> PdfDisplay ppm) (rt : Runtime)
    fname pages dpi w h :
  let d := g (display rt) in
  filename d = Some fname ->
  fitz_open fname = Some pages ->
  int (72 * zoom_fact d * scale_fact d) = Ok dpi ->
  int (float_of_int (width d) * scale_fact d) = Ok w ->
  int (float_of_int (height d) * scale_fact d) = Ok h ->
  exists rt',
    (zoom display_lens (modify g ;; remove_all ;; modify (set_active true)) ;;
     target <- render_pdf ;;
     Thread_start fitz_open getImageData target) rt = (Ok tt, rt') /\
    shows_pages getImageData dpi w h pages rt rt' /\
    threads rt' = threads rt ++ [PyNone].
Proof.
  intros d Hf Ho Hdpi Hw Hh. subst d.
  destruct (prepare_spec g rt) as (d1 & E & Hs & Hz & Hfn & Hwd & Hht & _ & Ha & Hl).
  unfold bind at 1. rewrite E.
  assert (Hd : display (update display_lens d1 rt) = d1) by reflexivity.
  destruct (render_pdf_loaded (update display_lens d1 rt) fname pages dpi w h)
    as (rt2 & Er & Hi & Hfr & Htr & Hn & Hact & Hb & Hlp & Hth & Hct);
    try (rewrite ?Hd, ?Hs, ?Hz, ?Hfn, ?Hwd, ?Hht; assumption).
  unfold bind at 1. rewrite Er.
  unfold Thread_start, bind, gets, modify, ret. cbn.
  eexists. split; [reflexivity |].
  cbn in Hi, Hfr, Htr, Hlp, Hth. unfold shows_pages. cbn.
  rewrite Hlp, Hl, Hth. repeat split; assumption.
Qed.

End Fitz.
End PdfFacts.

Import PdfFacts.

Section PdfOperations.
Context {page ppm : Type}.
Variable fitz_open : string -> option (list page).
Variable getImageData : page -> Z -> ppm.

#[local] Set Warnings "-inexact-float".

(** The three entry points are the same block around different updates
    of the display. *)
Lemma show_pdf_unfold (fname : string) (rt : Pdf.Runtime page ppm) :
  Pdf.show_pdf fitz_open getImageData fname rt =
  (zoom Pdf.display_lens
     (modify (fun d => Pdf.set_filename (Some fname) (Pdf.set_scale_fact 1 d)) ;;
      Pdf.remove_all ;; modify (Pdf.set_active true)) ;;
   target <- Pdf.render_pdf fitz_open getImageData ;;
   Pdf.Thread_start fitz_open getImageData target) rt.
Proof. reflexivity. Qed.

Lemma zoom_in_unfold (rt : Pdf.Runtime page ppm) :
  Pdf.zoom_in fitz_open getImageData rt =
  (zoom Pdf.display_lens
     (modify (fun d => Pdf.set_scale_fact (Pdf.scale_fact d * 1.1)%float d) ;;
      Pdf.remove_all ;; modify (Pdf.set_active true)) ;;
   target <- Pdf.render_pdf fitz_open getImageData ;;
   Pdf.Thread_start fitz_open getImageData target) rt.
Proof. reflexivity. Qed.

Lemma zoom_out_unfold (rt : Pdf.Runtime page ppm) :
  Pdf.zoom_out fitz_open getImageData rt =
  (zoom Pdf.display_lens
     (modify (fun d => Pdf.set_scale_fact (Pdf.scale_fact d / 1.1)%float d) ;;
      Pdf.remove_all ;; modify (Pdf.set_active true)) ;;
   target <- Pdf.render_pdf fitz_open getImageData ;;
   Pdf.Thread_start fitz_open getImageData target) rt.
Proof. reflexivity. Qed.

End PdfOperations.

(** C2. [render_pdf] empties the page-image list before it draws
    anything: its result does not depend on the list it finds, and
    afterwards (whether it returned or raised) the list holds only
    images created during this render, so no image that was in the list
    before is in it after. *)
Theorem C2_render_discards_prior_images :
  forall (page ppm : Type) (fitz_open : string -> option (list page))
         (getImageData : page -> Z -> ppm) (rt : Pdf.Runtime page ppm),
    Pdf.names_bounded rt ->
    let rt' := exec (Pdf.render_pdf fitz_open getImageData) rt in
    Pdf.render_pdf fitz_open getImageData rt =
      Pdf.render_pdf fitz_open getImageData (Pdf.clear_images rt) /\
    Pdf.only_new_images rt rt' /\
    (forall img, In img (Pdf.img_object_list (Pdf.display rt)) ->
                 ~ In img (Pdf.img_object_list (Pdf.display rt'))) /\
    Pdf.names_bounded rt'.
Proof.
  intros page ppm fo gid rt Hb rt'.
  assert (Hnew : Pdf.only_new_images rt rt').
  { destruct (render_pdf_rendered_by fo gid rt) as (_ & _ & _ & _ & _ & _ & Hl & _).
    exact Hl. }
  split; [| split; [exact Hnew | split]].
  - destruct rt as [d n t ths tr]. destruct d. reflexivity.
  - intros img Hold Hnow.
    unfold Pdf.names_bounded in Hb. unfold Pdf.only_new_images in Hnew.
    rewrite List.Forall_forall in Hb, Hnew.
    specialize (Hb img Hold). specialize (Hnew img Hnow). lia.
  - unfold Pdf.names_bounded. unfold Pdf.only_new_images in Hnew.
    eapply List.Forall_impl; [| exact Hnew]. cbn. intros img H. lia.
Qed.

(** C2 at the sample display: drawing "a.pdf" again after it was shown. *)
Lemma C2_render_discards_prior_images_witness :
  Pdf.names_bounded PdfSamples.loaded /\
  Pdf.only_new_images PdfSamples.loaded
    (exec (Pdf.render_pdf PdfSamples.fitz_open PdfSamples.getImageData) PdfSamples.loaded).
Proof.
  assert (H : Pdf.names_bounded PdfSamples.loaded).
  { unfold Pdf.names_bounded. vm_compute. repeat constructor. }
  split; [exact H |].
  exact (proj1 (proj2 (C2_render_discards_prior_images nat (nat * Z)%type
           PdfSamples.fitz_open PdfSamples.getImageData PdfSamples.loaded H))).
Defined.

#[local] Set Warnings "-inexact-float".

(** C3. From every scale factor [s], [zoom_in] leaves the scale factor
    at [s * 1.1] and [zoom_out] at [s / 1.1] (binary64 arithmetic, as in
    Python), and both run the render again: whatever is drawn is drawn
    at the resolution of the new scale factor, only newly created images
    remain, and when the loaded document opens and the scaled sizes are
    finite, every page is drawn and shown in a new frame. *)
Theorem C3_zoom_fixed_ratio_and_rerender :
  forall (page ppm : Type) (fitz_open : string -> option (list page))
         (getImageData : page -> Z -> ppm) (rt : Pdf.Runtime page ppm),
    let d := Pdf.display rt in
    let s_in := (Pdf.scale_fact d * 1.1)%float in
    let s_out := (Pdf.scale_fact d / 1.1)%float in
    let rt_in := exec (Pdf.zoom_in fitz_open getImageData) rt in
    let rt_out := exec (Pdf.zoom_out fitz_open getImageData) rt in
    (Pdf.scale_fact (Pdf.display rt_in) = s_in /\
     Pdf.drawn_at s_in rt rt_in /\ Pdf.only_new_images rt rt_in) /\
    (Pdf.scale_fact (Pdf.display rt_out) = s_out /\
     Pdf.drawn_at s_out rt rt_out /\ Pdf.only_new_images rt rt_out) /\
    (forall fname pages,
       Pdf.filename d = Some fname -> fitz_open fname = Some pages ->
       (forall dpi w h,
          Pdf.int (72 * Pdf.zoom_fact d * s_in) = Ok dpi ->
          Pdf.int (Pdf.float_of_int (Pdf.width d) * s_in) = Ok w ->
          Pdf.int (Pdf.float_of_int (Pdf.height d) * s_in) = Ok h ->
          result (Pdf.zoom_in fitz_open getImageData) rt = Ok tt /\
          Pdf.shows_pages getImageData dpi w h pages rt rt_in) /\
       (forall dpi w h,
          Pdf.int (72 * Pdf.zoom_fact d * s_out) = Ok dpi ->
          Pdf.int (Pdf.float_of_int (Pdf.width d) * s_out) = Ok w ->
          Pdf.int (Pdf.float_of_int (Pdf.height d) * s_out) = Ok h ->
          result (Pdf.zoom_out fitz_open getImageData) rt = Ok tt /\
          Pdf.shows_pages getImageData dpi w h pages rt rt_out)).
Proof.
  intros page ppm fo gid rt d s_in s_out rt_in rt_out.
  split; [| split].
  - subst rt_in. unfold exec. rewrite zoom_in_unfold.
    destruct (rerender_spec fo gid
                (fun d => Pdf.set_scale_fact (Pdf.scale_fact d * 1.1)%float d) rt)
      as (Hs & _ & _ & Hn & Hd & _); [reflexivity |].
    repeat split; assumption.
  - subst rt_out. unfold exec. rewrite zoom_out_unfold.
    destruct (rerender_spec fo gid
                (fun d => Pdf.set_scale_fact (Pdf.scale_fact d / 1.1)%float d) rt)
      as (Hs & _ & _ & Hn & Hd & _); [reflexivity |].
    repeat split; assumption.
  - intros fname pages Hf Ho. split; intros dpi w h Hdpi Hw Hh.
    + subst rt_in. unfold exec, result. rewrite zoom_in_unfold.
      destruct (rerender_loaded fo gid
                  (fun d => Pdf.set_scale_fact (Pdf.scale_fact d * 1.1)%float d)
                  rt fname pages dpi w h Hf Ho Hdpi Hw Hh) as (rt' & -> & Hsh & _).
      split; [reflexivity | exact Hsh].
    + subst rt_out. unfold exec, result. rewrite zoom_out_unfold.
      destruct (rerender_loaded fo gid
                  (fun d => Pdf.set_scale_fact (Pdf.scale_fact d / 1.1)%float d)
                  rt fname pages dpi w h Hf Ho Hdpi Hw Hh) as (rt' & -> & Hsh & _).
      split; [reflexivity | exact Hsh].
Qed.

(** C3 at the sample display: zooming in on "a.pdf" draws its two pages
    at 79 dpi in a frame of 82 by 660. *)
Lemma C3_zoom_fixed_ratio_and_rerender_witness :
  Pdf.scale_fact (Pdf.display
    (exec (Pdf.zoom_in PdfSamples.fitz_open PdfSamples.getImageData) PdfSamples.loaded))
    = (1 * 1.1)%float /\
  Pdf.shows_pages PdfSamples.getImageData 79 82 660 [1; 2]%nat PdfSamples.loaded
    (exec (Pdf.zoom_in PdfSamples.fitz_open PdfSamples.getImageData) PdfSamples.loaded).
Proof.
  destruct (C3_zoom_fixed_ratio_and_rerender nat (nat * Z)%type
              PdfSamples.fitz_open PdfSamples.getImageData PdfSamples.loaded)
    as ((Hs & _) & _ & Hl).
  split; [exact Hs |].
  destruct (Hl "a.pdf"%string [1; 2]%nat eq_refl eq_refl) as (Hin & _).
  apply (Hin 79%Z 82%Z 660%Z); vm_compute; reflexivity.
Defined.

(** C8. [show_pdf] sets the scale factor to 1 before it renders, from
    every prior zoom level: the scale factor is 1 afterwards, whatever
    is drawn is drawn at the resolution of scale factor 1, and when the
    file opens (at finite sizes) all its pages are shown at that
    resolution. *)
Theorem C8_show_pdf_resets_zoom :
  forall (page ppm : Type) (fitz_open : string -> option (list page))
         (getImageData : page -> Z -> ppm) (rt : Pdf.Runtime page ppm)
         (fname : string),
    let d := Pdf.display rt in
    let rt' := exec (Pdf.show_pdf fitz_open getImageData fname) rt in
    Pdf.scale_fact (Pdf.display rt') = 1%float /\
    Pdf.filename (Pdf.display rt') = Some fname /\
    Pdf.drawn_at 1 rt rt' /\
    (forall pages dpi w h,
       fitz_open fname = Some pages ->
       Pdf.int (72 * Pdf.zoom_fact d * 1) = Ok dpi ->
       Pdf.int (Pdf.float_of_int (Pdf.width d) * 1) = Ok w ->
       Pdf.int (Pdf.float_of_int (Pdf.height d) * 1) = Ok h ->
       result (Pdf.show_pdf fitz_open getImageData fname) rt = Ok tt /\
       Pdf.shows_pages getImageData dpi w h pages rt rt').
Proof.
  intros page ppm fo gid rt fname d rt'.
  subst rt'. unfold exec, result. rewrite show_pdf_unfold.
  destruct (rerender_spec fo gid
              (fun d => Pdf.set_filename (Some fname) (Pdf.set_scale_fact 1 d)) rt)
    as (Hs & Hf & _ & _ & Hd & _); [reflexivity |].
  split; [exact Hs |]. split; [exact Hf |]. split; [exact Hd |].
  intros pages dpi w h Ho Hdpi Hw Hh.
  destruct (rerender_loaded fo gid
              (fun d => Pdf.set_filename (Some fname) (Pdf.set_scale_fact 1 d))
              rt fname pages dpi w h eq_refl Ho Hdpi Hw Hh) as (rt' & -> & Hsh & _).
  split; [reflexivity | exact Hsh].
Qed.

(** C8 at the sample display: after zooming in twice, showing "a.pdf"
    again draws it at 72 dpi. *)
Lemma C8_show_pdf_resets_zoom_witness :
  let zoomed :=
    exec (Pdf.zoom_in PdfSamples.fitz_open PdfSamples.getImageData)
      (exec (Pdf.zoom_in PdfSamples.fitz_open PdfSamples.getImageData)
         PdfSamples.loaded) in
  Pdf.scale_fact (Pdf.display zoomed) = (1 * 1.1 * 1.1)%float /\
  Pdf.scale_fact (Pdf.display
    (exec (Pdf.show_pdf PdfSamples.fitz_open PdfSamples.getImageData "a.pdf") zoomed))
    = 1%float /\
  Pdf.shows_pages PdfSamples.getImageData 72 75 600 [1; 2]%nat zoomed
    (exec (Pdf.show_pdf PdfSamples.fitz_open PdfSamples.getImageData "a.pdf") zoomed).
Proof.
  intros zoomed.
  destruct (C8_show_pdf_resets_zoom nat (nat * Z)%type
              PdfSamples.fitz_open PdfSamples.getImageData zoomed "a.pdf"%string)
    as (Hs & _ & _ & Hl).
  split; [vm_compute; reflexivity |]. split; [exact Hs |].
  apply (Hl [1; 2]%nat 72%Z 75%Z 600%Z); vm_compute; reflexivity.
Defined.

(** C7. The render does not run on a worker thread.  [show_pdf],
    [zoom_in] and [zoom_out] call [self.render_pdf()] themselves and
    hand its return value to [Thread]: all the work they record is done
    by the calling thread, and every thread they start has [None] as its
    target, so it runs nothing.  At the sample display, showing "a.pdf"
    draws both pages on thread 0 and starts one thread without a
    target; a thread given the bound method [self.render_pdf] would have
    drawn them as thread 1. *)
Theorem C7_render_runs_on_calling_thread :
  (forall (page ppm : Type) (fitz_open : string -> option (list page))
          (getImageData : page -> Z -> ppm) (rt : Pdf.Runtime page ppm)
          (fname : string),
     let on_caller (m : M (Pdf.Runtime page ppm) unit) :=
       Pdf.current_thread (exec m rt) = Pdf.current_thread rt /\
       (exists done, Pdf.trace (exec m rt) = Pdf.trace rt ++ done /\
                     Forall (fun e => fst e = Pdf.current_thread rt) done) /\
       Pdf.started_without_target rt (exec m rt) in
     on_caller (Pdf.show_pdf fitz_open getImageData fname) /\
     on_caller (Pdf.zoom_in fitz_open getImageData) /\
     on_caller (Pdf.zoom_out fitz_open getImageData)) /\
  (Pdf.current_thread PdfSamples.fresh = 0%nat /\
   Pdf.trace PdfSamples.loaded =
     [(0%nat, Pdf.Render 1%nat 72%Z); (0%nat, Pdf.Render 2%nat 72%Z)] /\
   Pdf.threads PdfSamples.loaded = [Pdf.PyNone] /\
   Pdf.trace (exec (Pdf.Thread_start PdfSamples.fitz_open PdfSamples.getImageData
                      Pdf.Bound_render_pdf) PdfSamples.unloaded) =
     [(1%nat, Pdf.Render 1%nat 72%Z); (1%nat, Pdf.Render 2%nat 72%Z)]).
Proof.
  split.
  - intros page ppm fo gid rt fname on_caller. subst on_caller. cbv beta.
    assert (Hweak : forall s rt', Pdf.drawn_at s rt rt' ->
              exists done, Pdf.trace rt' = Pdf.trace rt ++ done /\
                           Forall (fun e => fst e = Pdf.current_thread rt) done).
    { intros s rt' (done & E & H). exists done. split; [exact E |].
      eapply List.Forall_impl; [| exact H]. cbn. intros e [He _]. exact He. }
    unfold exec. rewrite show_pdf_unfold, zoom_in_unfold, zoom_out_unfold.
    split; [| split].
    + destruct (rerender_spec fo gid
                  (fun d => Pdf.set_filename (Some fname) (Pdf.set_scale_fact 1 d)) rt)
        as (_ & _ & Ht & _ & Hd & Hth); [reflexivity |].
      split; [exact Ht |]. split; [exact (Hweak _ _ Hd) | exact Hth].
    + destruct (rerender_spec fo gid
                  (fun d => Pdf.set_scale_fact (Pdf.scale_fact d * 1.1)%float d) rt)
        as (_ & _ & Ht & _ & Hd & Hth); [reflexivity |].
      split; [exact Ht |]. split; [exact (Hweak _ _ Hd) | exact Hth].
    + destruct (rerender_spec fo gid
                  (fun d => Pdf.set_scale_fact (Pdf.scale_fact d / 1.1)%float d) rt)
        as (_ & _ & Ht & _ & Hd & Hth); [reflexivity |].
      split; [exact Ht |]. split; [exact (Hweak _ _ Hd) | exact Hth].
  - vm_compute. repeat split.
Qed.

